(** * iqua-softener: the authenticated session and the request pipeline

    A shallow embedding of [iqua_softener/iqua.py] (class [IquaSoftener]):
    token storage, expiry tracking, login and refresh, the request
    pipeline with its 401 branch, device-id resolution, the valve command
    and the token file.

    Python values that come out of JSON documents are of type [json];
    numbers are the integers.  The instance is a record of its attributes,
    threaded through a state-and-exception monad together with the file
    system, the log of HTTP calls and the number of clock reads.  What the
    program receives from outside (HTTP responses, the clock, PyJWT, the
    [str()] and [int()] conversions of the interpreter) is an [env]. *)

From Stdlib Require Import ZArith QArith Lia Ascii String.
From stdpp Require Import gmap strings list fin_maps.

Set Warnings "-register-all".

Local Open Scope string_scope.
Local Open Scope Z_scope.

(** ** Python values *)

Inductive json : Type :=
| JNull
| JBool (b : bool)
| JNum (n : Z)
| JStr (s : string)
| JArr (items : list json)
| JObj (kvs : list (string * json)).

(** A [dict] is kept as the list of its items, in insertion order; lookup
    takes the first item of the key. *)
Definition pydict := list (string * json).

Fixpoint dict_get (d : pydict) (k : string) : option json :=
  match d with
  | [] => None
  | (k', v) :: d' => if String.eqb k' k then Some v else dict_get d' k
  end.

(** [d.get(k, default)] on a dict. *)
Definition dict_get_or (d : pydict) (k : string) (default : json) : json :=
  match dict_get d k with
  | Some v => v
  | None => default
  end.

(** Truth value of an object, as [if v:] and [not v] test it. *)
Definition py_truthy (v : json) : bool :=
  match v with
  | JNull => false
  | JBool b => b
  | JNum n => negb (Z.eqb n 0)
  | JStr s => negb (String.eqb s "")
  | JArr l => match l with [] => false | _ => true end
  | JObj d => match d with [] => false | _ => true end
  end.

(** [v == s] for a [str] s: only an equal string is equal to it. *)
Definition py_eq_str (v : json) (s : string) : bool :=
  match v with
  | JStr t => String.eqb t s
  | _ => false
  end.

(** ** Exceptions *)

(** The messages of [IquaSoftenerException], by the [raise] that builds
    them. *)
Inductive iqua_error : Type :=
| LoginRequestException
| AuthenticationError (text : string)
| LoginFailed (status : Z) (text : string)
| NoRefreshTokenAvailable
| RefreshRequestException
| RefreshFailed (status : Z) (text : string)
| DeviceNotFound (serial : string)
| InvalidStatus (status : Z) (request : string).

Inductive exn : Type :=
| IquaSoftenerException (e : iqua_error)
| ValueError (msg : string)
| TypeError (msg : string)
| AttributeError (msg : string)
| KeyError (key : string)
| HTTPError (status : Z)
| RequestException
| RequestsJSONDecodeError
| JSONDecodeError
| OSError.

Inductive result (A : Type) : Type :=
| Ok (a : A)
| Raise (e : exn).
Arguments Ok {A} a.
Arguments Raise {A} e.

(** [v.get(k, default)]: only a dict has the method. *)
Definition py_get (v : json) (k : string) (default : json) : result json :=
  match v with
  | JObj d => Ok (dict_get_or d k default)
  | _ => Raise (AttributeError "get")
  end.

(** [v[k]] for a string key. *)
Definition py_getitem (v : json) (k : string) : result json :=
  match v with
  | JObj d => match dict_get d k with
              | Some x => Ok x
              | None => Raise (KeyError k)
              end
  | _ => Raise (TypeError "subscript")
  end.

Fixpoint chars (s : string) : list json :=
  match s with
  | EmptyString => []
  | String c s' => JStr (String c EmptyString) :: chars s'
  end.

(** The items a [for] loop over v visits: the elements of a list, the keys
    of a dict, the characters of a string. *)
Definition py_iter (v : json) : result (list json) :=
  match v with
  | JArr l => Ok l
  | JObj d => Ok (map (fun kv => JStr (fst kv)) d)
  | JStr s => Ok (chars s)
  | _ => Raise (TypeError "not iterable")
  end.

(** [t >= v] for the float t of [time.time()]: numbers compare by value,
    a bool as 0 or 1, anything else is a [TypeError]. *)
Definition py_time_ge (t : Q) (v : json) : result bool :=
  match v with
  | JNum n => Ok (Qle_bool (inject_Z n) t)
  | JBool b => Ok (Qle_bool (inject_Z (if b then 1 else 0)) t)
  | _ => Raise (TypeError ">=")
  end.

(** ** HTTP *)

Record response : Type := mkResponse {
  status_code : Z;
  text : string;
  (** the document [r.json()] returns; [None] when the body is not JSON *)
  body : option json
}.

Record request : Type := mkRequest {
  req_method : string;
  req_url : string;
  req_timeout : Z;
  req_json : option json;
  (** the [Authorization] header of the session at the time of the call *)
  req_authorization : option string
}.

Inductive net_outcome : Type :=
| NetRaise
| NetResponse (r : response).

(** ** The environment *)

Record env : Type := mkEnv {
  (** the outcome of an HTTP call, given the calls made before it (latest
      first) *)
  transport : list request -> request -> net_outcome;
  (** [time.time()] at the n-th read of the clock *)
  clock : nat -> Q;
  (** the module [jwt]: [None] when the import failed; otherwise
      [jwt.decode(token, options={"verify_signature": False})], which
      returns the payload dict or raises *)
  jwt : option (json -> option pydict);
  (** [str(v)] for a v that is not a [str] *)
  py_str_other : json -> string;
  (** [int(s)] for a [str] s; [None] when it raises [ValueError] *)
  py_int_str : string -> option Z;
  (** whether [open(path, "w")] succeeds: the directory of the path exists
      and the process may write there *)
  writable : string -> bool;
  (** the interpreter's limit on the decimal digits of an int it converts
      to text (4300 by default since Python 3.11); [None] when there is no
      limit *)
  int_max_str_digits : option Z
}.

(** ** The instance and the world around it *)

Record session : Type := mkSession {
  authorization : option string
}.

Record client : Type := mkClient {
  _username : string;
  _password : string;
  _device_serial_number : string;
  _api_base_url : string;
  _session : option session;
  _access_token : json;
  _refresh_token : json;
  _user_id : json;
  _access_expires_at : json;
  _device_id : json
}.

(** What a file holds: a text that [json.load] parses to a document, any
    other text, or what [json.dump] had written of a document when it
    raised. *)
Inductive file_content : Type :=
| FJson (doc : json)
| FText (raw : string)
| FPartial (doc : json).

Inductive fs_entry : Type :=
| FFile (c : file_content)
| FNoAccess.

Record world : Type := mkWorld {
  self : client;
  fs : gmap string fs_entry;
  net_log : list request;
  clock_reads : nat
}.

(** ** Attribute updates *)

Definition set__session (v : option session) (c : client) : client :=
  mkClient (_username c) (_password c) (_device_serial_number c)
    (_api_base_url c) v (_access_token c) (_refresh_token c) (_user_id c)
    (_access_expires_at c) (_device_id c).

Definition set__access_token (v : json) (c : client) : client :=
  mkClient (_username c) (_password c) (_device_serial_number c)
    (_api_base_url c) (_session c) v (_refresh_token c) (_user_id c)
    (_access_expires_at c) (_device_id c).

Definition set__refresh_token (v : json) (c : client) : client :=
  mkClient (_username c) (_password c) (_device_serial_number c)
    (_api_base_url c) (_session c) (_access_token c) v (_user_id c)
    (_access_expires_at c) (_device_id c).

Definition set__user_id (v : json) (c : client) : client :=
  mkClient (_username c) (_password c) (_device_serial_number c)
    (_api_base_url c) (_session c) (_access_token c) (_refresh_token c) v
    (_access_expires_at c) (_device_id c).

Definition set__access_expires_at (v : json) (c : client) : client :=
  mkClient (_username c) (_password c) (_device_serial_number c)
    (_api_base_url c) (_session c) (_access_token c) (_refresh_token c)
    (_user_id c) v (_device_id c).

Definition set__device_id (v : json) (c : client) : client :=
  mkClient (_username c) (_password c) (_device_serial_number c)
    (_api_base_url c) (_session c) (_access_token c) (_refresh_token c)
    (_user_id c) (_access_expires_at c) v.

Definition with_self (f : client -> client) (w : world) : world :=
  mkWorld (f (self w)) (fs w) (net_log w) (clock_reads w).

Definition with_fs (f : gmap string fs_entry -> gmap string fs_entry)
    (w : world) : world :=
  mkWorld (self w) (f (fs w)) (net_log w) (clock_reads w).

Definition with_net_log (f : list request -> list request) (w : world) : world :=
  mkWorld (self w) (fs w) (f (net_log w)) (clock_reads w).

Definition with_clock_reads (f : nat -> nat) (w : world) : world :=
  mkWorld (self w) (fs w) (net_log w) (f (clock_reads w)).

(** ** The monad of method bodies: state and exceptions

    A raised exception keeps the state reached when it was raised. *)

Definition M (A : Type) : Type := world -> result A * world.

Definition ret {A : Type} (a : A) : M A := fun w => (Ok a, w).

Definition raise {A : Type} (e : exn) : M A := fun w => (Raise e, w).

Definition bind {A B : Type} (m : M A) (k : A -> M B) : M B :=
  fun w =>
    match m w with
    | (Ok a, w') => k a w'
    | (Raise e, w') => (Raise e, w')
    end.

Definition lift {A : Type} (r : result A) : M A := fun w => (r, w).

(** [try: m except <class>: h], the class given by the exceptions it
    covers. *)
Definition try_except {A : Type} (m : M A) (covers : exn -> bool) (h : M A)
    : M A :=
  fun w =>
    match m w with
    | (Ok a, w') => (Ok a, w')
    | (Raise e, w') => if covers e then h w' else (Raise e, w')
    end.

Definition get {A : Type} (f : client -> A) : M A :=
  fun w => (Ok (f (self w)), w).

Definition modify (f : client -> client) : M unit :=
  fun w => (Ok tt, with_self f w).

Declare Scope py_scope.
Delimit Scope py_scope with py.
Notation "x <- c1 ;; c2" := (bind c1 (fun x => c2))
  (at level 100, c1 at next level, right associativity) : py_scope.
Notation "c1 ;; c2" := (bind c1 (fun _ => c2))
  (at level 100, right associativity) : py_scope.
Local Open Scope py_scope.

(** The exception classes named in [except] clauses.  [HTTPError] and the
    decode error of [r.json()] are subclasses of requests'
    [RequestException]. *)
Definition is_IquaSoftenerException (e : exn) : bool :=
  match e with
  | IquaSoftenerException _ => true
  | _ => false
  end.

Definition is_RequestException (e : exn) : bool :=
  match e with
  | RequestException | HTTPError _ | RequestsJSONDecodeError => true
  | _ => false
  end.

(** ** Strings *)

Definition slash : ascii := "/"%char.

(** [s.lstrip('/')] *)
Fixpoint lstrip_slash (s : string) : string :=
  match s with
  | EmptyString => EmptyString
  | String c s' => if Ascii.eqb c slash then lstrip_slash s' else s
  end.

(** [s.rstrip('/')] *)
Fixpoint rstrip_slash (s : string) : string :=
  match s with
  | EmptyString => EmptyString
  | String c s' =>
      match rstrip_slash s' with
      | EmptyString => if Ascii.eqb c slash then EmptyString
                       else String c EmptyString
      | r => String c r
      end
  end.

(** The URL of a request: [path] itself when it starts with ["http"],
    otherwise the base and the path joined by one slash. *)
Definition resolve_url (base path : string) : string :=
  if String.prefix "http" path then path
  else rstrip_slash base ++ "/" ++ lstrip_slash path.

(** [str(v)], as an f-string formats v. *)
Definition py_str (E : env) (v : json) : string :=
  match v with
  | JStr s => s
  | _ => py_str_other E v
  end.

(** [int(v)]; [None] when it raises. *)
Definition py_int (E : env) (v : json) : option Z :=
  match v with
  | JNum n => Some n
  | JBool b => Some (if b then 1 else 0)
  | JStr s => py_int_str E s
  | _ => None
  end.

(** [v()]: no value of a JSON document is callable. *)
Definition py_call {A : Type} (v : json) : M A :=
  raise (TypeError "object is not callable").

(** ** The class [IquaSoftener] *)

Definition DEFAULT_API_BASE_URL : string := "https://api.myiquaapp.com/v1".

(** [__init__]: every attribute is bound on the instance, [_refresh_token]
    among them. *)
Definition __init__ (username password device_serial_number api_base_url : string)
    : client :=
  mkClient username password device_serial_number api_base_url
    None JNull JNull JNull JNull JNull.

Section IquaSoftener.

Context (E : env).

(** [time.time()] *)
Definition time_time : M Q :=
  fun w => (Ok (clock E (clock_reads w)), with_clock_reads S w).

(** [self._session.request(method, url, timeout=..., json=...)] and
    [self._session.post(url, json=..., timeout=...)]: the call is logged,
    then the transport answers or raises. *)
Definition session_request (method url : string) (timeout : Z)
    (payload : option json) : M response :=
  s <- get _session ;;
  match s with
  | None => raise (AttributeError "request")
  | Some sess =>
      fun w =>
        let req := mkRequest method url timeout payload (authorization sess) in
        let w' := with_net_log (cons req) w in
        match transport E (net_log w) req with
        | NetRaise => (Raise RequestException, w')
        | NetResponse r => (Ok r, w')
        end
  end.

(** [r.json()] *)
Definition response_json (r : response) : M json :=
  match body r with
  | Some doc => ret doc
  | None => raise RequestsJSONDecodeError
  end.

(** [r.raise_for_status()] of requests: an [HTTPError] for a status from
    400 to 599, nothing otherwise. *)
Definition raise_for_status (r : response) : M unit :=
  if (400 <=? status_code r) && (status_code r <? 600)
  then raise (HTTPError (status_code r))
  else ret tt.

Definition _ensure_session : M unit :=
  s <- get _session ;;
  match s with
  | None => modify (set__session (Some (mkSession None)))
  | Some _ => ret tt
  end.

(** [self._session.headers.update({"Authorization": value})] *)
Definition headers_update_authorization (value : string) : M unit :=
  s <- get _session ;;
  match s with
  | None => raise (AttributeError "headers")
  | Some _ => modify (set__session (Some (mkSession (Some value))))
  end.

(** The [if jwt:] block of [_set_tokens]: [try] to decode the token and
    to store [int(exp) - 60]; [except Exception] stores [None]. *)
Definition derive_expiry (access_token : json) : M unit :=
  match jwt E with
  | Some jwt_decode =>
      match jwt_decode access_token with
      | Some decoded =>
          let exp := dict_get_or decoded "exp" JNull in
          if py_truthy exp then
            match py_int E exp with
            | Some n => modify (set__access_expires_at (JNum (n - 60)))
            | None => modify (set__access_expires_at JNull)
            end
          else ret tt
      | None => modify (set__access_expires_at JNull)
      end
  | None => ret tt
  end.

Definition _set_tokens (access_token refresh_token : json) : M unit :=
  modify (set__access_token access_token) ;;
  modify (set__refresh_token refresh_token) ;;
  derive_expiry access_token ;;
  _ensure_session ;;
  tok <- get _access_token ;;
  if py_truthy tok
  then headers_update_authorization ("Bearer " ++ py_str E tok)
  else ret tt.

Definition _is_token_expired : M bool :=
  tok <- get _access_token ;;
  if negb (py_truthy tok) then ret true
  else
    expires_at <- get _access_expires_at ;;
    match expires_at with
    | JNull => ret false
    | _ => now <- time_time ;; lift (py_time_ge now expires_at)
    end.

Definition _login : M json :=
  _ensure_session ;;
  base <- get _api_base_url ;;
  username <- get _username ;;
  password <- get _password ;;
  let url := base ++ "/auth/login" in
  let payload := JObj [("email", JStr username); ("password", JStr password)] in
  r <- try_except (session_request "POST" url 15 (Some payload))
         is_RequestException
         (raise (IquaSoftenerException LoginRequestException)) ;;
  if status_code r =? 401
  then raise (IquaSoftenerException (AuthenticationError (text r)))
  else if negb (status_code r =? 200)
  then raise (IquaSoftenerException (LoginFailed (status_code r) (text r)))
  else
    data <- response_json r ;;
    access_token <- lift (py_get data "access_token" JNull) ;;
    refresh_token <- lift (py_get data "refresh_token" JNull) ;;
    _set_tokens access_token refresh_token ;;
    user_id <- lift (py_get data "user_id" JNull) ;;
    modify (set__user_id user_id) ;;
    ret data.

(** The function [_refresh_token] of the class body.  The instance
    attribute of the same name hides it from [self._refresh_token], so it
    is reached as [IquaSoftener._refresh_token(client)] only. *)
Definition IquaSoftener__refresh_token : M json :=
  held <- get _refresh_token ;;
  if negb (py_truthy held)
  then raise (IquaSoftenerException NoRefreshTokenAvailable)
  else
    _ensure_session ;;
    base <- get _api_base_url ;;
    let url := base ++ "/auth/refresh" in
    let payload := JObj [("refresh_token", held)] in
    r <- try_except (session_request "POST" url 15 (Some payload))
           is_RequestException
           (raise (IquaSoftenerException RefreshRequestException)) ;;
    if negb (status_code r =? 200)
    then raise (IquaSoftenerException (RefreshFailed (status_code r) (text r)))
    else
      data <- response_json r ;;
      access_token <- lift (py_get data "access_token" JNull) ;;
      refresh_token <- lift (py_get data "refresh_token" JNull) ;;
      _set_tokens access_token refresh_token ;;
      ret data.

(** The expression [self._refresh_token()]: attribute lookup finds the
    value bound by [__init__], [_set_tokens] or [load_tokens] in the
    instance dictionary before the function of the class (a function is a
    non-data descriptor), and the call applies that value. *)
Definition self__refresh_token_call : M json :=
  v <- get _refresh_token ;;
  py_call v.

Definition _ensure_authenticated : M unit :=
  expired <- _is_token_expired ;;
  if expired then
    try_except
      (held <- get _refresh_token ;;
       if py_truthy held
       then self__refresh_token_call ;; ret tt
       else _login ;; ret tt)
      is_IquaSoftenerException
      (_login ;; ret tt)
  else ret tt.

Definition _request (method path : string) (payload : option json) : M response :=
  _ensure_authenticated ;;
  _ensure_session ;;
  base <- get _api_base_url ;;
  let url := resolve_url base path in
  r <- session_request method url 20 payload ;;
  held <- get _refresh_token ;;
  r <- (if (status_code r =? 401) && py_truthy held then
          try_except
            (self__refresh_token_call ;;
             session_request method url 20 payload)
            is_IquaSoftenerException
            (_login ;;
             session_request method url 20 payload)
        else ret r) ;;
  (if negb (status_code r =? 200) then raise_for_status r else ret tt) ;;
  ret r.

Definition _get_devices : M json :=
  r <- _request "GET" "/devices" None ;;
  data <- response_json r ;;
  lift (py_get data "data" (JArr [])).

(** [device.get("properties", {}).get("serial_number", {}).get("value")] *)
Definition device_serial_of (device : json) : result json :=
  match py_get device "properties" (JObj []) with
  | Ok props =>
      match py_get props "serial_number" (JObj []) with
      | Ok sn => py_get sn "value" JNull
      | Raise e => Raise e
      end
  | Raise e => Raise e
  end.

(** Whether the loop of [_get_device_id] takes the device for the one
    configured: its serial lookup succeeds and compares equal. *)
Definition serial_matches (serial : string) (device : json) : bool :=
  match device_serial_of device with
  | Ok v => py_eq_str v serial
  | Raise _ => false
  end.

(** The [for] loop of [_get_device_id] and the [raise] after it. *)
Fixpoint find_device (serial : string) (devices : list json) : M json :=
  match devices with
  | [] => raise (IquaSoftenerException (DeviceNotFound serial))
  | device :: rest =>
      device_serial <- lift (device_serial_of device) ;;
      if py_eq_str device_serial serial then
        id <- lift (py_getitem device "id") ;;
        modify (set__device_id id) ;;
        get _device_id
      else find_device serial rest
  end.

Definition _get_device_id : M json :=
  cached <- get _device_id ;;
  match cached with
  | JNull =>
      devices <- _get_devices ;;
      items <- lift (py_iter devices) ;;
      serial <- get _device_serial_number ;;
      find_device serial items
  | _ => ret cached
  end.

Definition set_water_shutoff_valve (state : Z) : M json :=
  if negb ((state =? 0) || (state =? 1))
  then raise (ValueError "Invalid state for water shut off valve (should be 0 or 1).")
  else
    device_id <- _get_device_id ;;
    let url := "/devices/" ++ py_str E device_id ++ "/command" in
    let action := if state =? 1 then "close" else "open" in
    let payload :=
      JObj [("function", JStr "water_shutoff_valve"); ("action", JStr action)] in
    response <- _request "PUT" url (Some payload) ;;
    if negb (status_code response =? 200)
    then raise (IquaSoftenerException
                  (InvalidStatus (status_code response) "set water shutoff valve"))
    else response_json response.

End IquaSoftener.

(** ** The token file *)

(** The dict [save_tokens] hands to [json.dump]. *)
Definition tokens_blob (c : client) : json :=
  JObj [("access_token", _access_token c);
        ("refresh_token", _refresh_token c);
        ("user_id", _user_id c);
        ("_access_expires_at", _access_expires_at c)].

(** Whether the interpreter converts the int n to text: it has at most
    [int_max_str_digits] decimal digits. *)
Definition int_printable (E : env) (n : Z) : bool :=
  match int_max_str_digits E with
  | Some digits => Z.abs n <? 10 ^ digits
  | None => true
  end.

(** Whether [json.dump] writes the whole document: every int in it is
    converted to text. *)
Fixpoint json_dumpable (E : env) (v : json) : bool :=
  match v with
  | JNum n => int_printable E n
  | JArr items => forallb (json_dumpable E) items
  | JObj kvs => forallb (fun kv => json_dumpable E (snd kv)) kvs
  | _ => true
  end.

(** [open(path, "w")] then [json.dump]: [open] raises [OSError] where it
    cannot write; otherwise the file is emptied and the document written
    to it piece by piece, and an int the interpreter does not convert raises
    [ValueError] with the pieces before it in the file. *)
Definition save_tokens (E : env) (path : string) : M unit :=
  fun w =>
    match fs w !! path with
    | Some FNoAccess => (Raise OSError, w)
    | _ =>
        if writable E path then
          if json_dumpable E (tokens_blob (self w)) then
            (Ok tt,
             with_fs (insert path (FFile (FJson (tokens_blob (self w))))) w)
          else
            (Raise (ValueError "Exceeds the limit for integer string conversion"),
             with_fs (insert path (FFile (FPartial (tokens_blob (self w))))) w)
        else (Raise OSError, w)
    end.

(** [os.path.exists], [open(path, "r")] and [json.load]. *)
Definition read_json (path : string) : M (option json) :=
  fun w =>
    match fs w !! path with
    | None => (Ok None, w)
    | Some FNoAccess => (Raise OSError, w)
    | Some (FFile (FText _)) => (Raise JSONDecodeError, w)
    | Some (FFile (FPartial _)) => (Raise JSONDecodeError, w)
    | Some (FFile (FJson doc)) => (Ok (Some doc), w)
    end.

Definition load_tokens (path : string) : M unit :=
  found <- read_json path ;;
  match found with
  | None => ret tt
  | Some data =>
      access_token <- lift (py_get data "access_token" JNull) ;;
      modify (set__access_token access_token) ;;
      refresh_token <- lift (py_get data "refresh_token" JNull) ;;
      modify (set__refresh_token refresh_token) ;;
      user_id <- lift (py_get data "user_id" JNull) ;;
      modify (set__user_id user_id) ;;
      expires_at <- lift (py_get data "_access_expires_at" JNull) ;;
      modify (set__access_expires_at expires_at)
  end.

(** ** The remaining operations *)

Section Operations.

Context (E : env).

(** The property [device_serial_number]. *)
Definition device_serial_number : M string := get _device_serial_number.

Definition _get_device_detail (device_id : json) : M json :=
  r <- _request E "GET"
         ("/devices/" ++ py_str E device_id ++ "/detail-or-summary") None ;;
  data <- response_json r ;;
  lift (py_get data "device" (JObj [])).

Definition open_water_shutoff_valve : M json := set_water_shutoff_valve E 0.

Definition close_water_shutoff_valve : M json := set_water_shutoff_valve E 1.

Definition schedule_regeneration : M json :=
  device_id <- _get_device_id E ;;
  let url := "/devices/" ++ py_str E device_id ++ "/command" in
  let payload := JObj [("function", JStr "regenerate"); ("action", JStr "schedule")] in
  response <- _request E "PUT" url (Some payload) ;;
  if negb (status_code response =? 200)
  then raise (IquaSoftenerException
                (InvalidStatus (status_code response) "schedule regeneration"))
  else response_json response.

Definition cancel_scheduled_regeneration : M json :=
  device_id <- _get_device_id E ;;
  let url := "/devices/" ++ py_str E device_id ++ "/command" in
  let payload := JObj [("function", JStr "regenerate"); ("action", JStr "cancel")] in
  response <- _request E "PUT" url (Some payload) ;;
  if negb (status_code response =? 200)
  then raise (IquaSoftenerException
                (InvalidStatus (status_code response) "cancel regeneration"))
  else response_json response.

Definition regenerate_now : M json :=
  device_id <- _get_device_id E ;;
  let url := "/devices/" ++ py_str E device_id ++ "/command" in
  let payload := JObj [("function", JStr "regenerate"); ("action", JStr "regenerate")] in
  response <- _request E "PUT" url (Some payload) ;;
  if negb (status_code response =? 200)
  then raise (IquaSoftenerException
                (InvalidStatus (status_code response) "regenerate now"))
  else response_json response.

Definition get_devices : M json := _get_devices E.

Definition get_device_id : M json := _get_device_id E.

End Operations.

(** ** Vocabulary of the statements *)

(** The call [_request] logs once [_ensure_authenticated] has returned. *)
Definition pipeline_call (w : world) (sess : session) (method path : string)
    (payload : option json) : request :=
  mkRequest method (resolve_url (_api_base_url (self w)) path) 20 payload
    (authorization sess).

Definition is_error_status (status : Z) : bool :=
  (400 <=? status) && (status <? 600).

(** What [_request] makes of the final response, and what
    [set_water_shutoff_valve] makes of it. *)
Definition request_outcome (r : response) : result response :=
  if is_error_status (status_code r) then Raise (HTTPError (status_code r))
  else Ok r.


(** The path and the payload of the valve command. *)
Definition valve_path (E : env) (device_id : json) : string :=
  "/devices/" ++ py_str E device_id ++ "/command".

Definition valve_payload (action : string) : json :=
  JObj [("function", JStr "water_shutoff_valve"); ("action", JStr action)].

(** The part of the instance that [__init__] alone binds. *)
Definition config_of (c : client) : string * string * string * string :=
  (_username c, _password c, _device_serial_number c, _api_base_url c).

Definition keeps_config {A : Type} (m : M A) : Prop :=
  forall w : world, config_of (self (snd (m w))) = config_of (self w).

(** The calls [_login] and the function [_refresh_token] log. *)
Definition login_call (w : world) (sess : session) : request :=
  mkRequest "POST" (_api_base_url (self w) ++ "/auth/login") 15
    (Some (JObj [("email", JStr (_username (self w)));
                 ("password", JStr (_password (self w)))]))
    (authorization sess).

Definition refresh_call (w : world) (sess : session) : request :=
  mkRequest "POST" (_api_base_url (self w) ++ "/auth/refresh") 15
    (Some (JObj [("refresh_token", _refresh_token (self w))]))
    (authorization sess).

(** The [Authorization] header of the session, if there is one. *)
Definition authorization_of (s : option session) : option string :=
  match s with
  | Some sess => authorization sess
  | None => None
  end.

(** The header [_set_tokens] leaves for the access token [tok]. *)
Definition bearer_after (E : env) (tok : json) (before : option string)
    : option string :=
  if py_truthy tok then Some ("Bearer " ++ py_str E tok) else before.

(** A method leaves a component of the world as it found it. *)
Definition preserves {A B : Type} (proj : world -> B) (m : M A) : Prop :=
  forall w : world, proj (snd (m w)) = proj w.

(** A component of the world that does not depend on what the request
    pipeline writes: the clock reads, the log, the session, the two tokens,
    the derived expiry and the user id. *)
Definition outside_pipeline {B : Type} (proj : world -> B) : Prop :=
  (forall w f, proj (with_clock_reads f w) = proj w)
  /\ (forall w f, proj (with_net_log f w) = proj w)
  /\ (forall w v, proj (with_self (set__session v) w) = proj w)
  /\ (forall w v, proj (with_self (set__access_token v) w) = proj w)
  /\ (forall w v, proj (with_self (set__refresh_token v) w) = proj w)
  /\ (forall w v, proj (with_self (set__access_expires_at v) w) = proj w)
  /\ (forall w v, proj (with_self (set__user_id v) w) = proj w).

(** The configuration and the file system, the part of the world no
    operation but [save_tokens] is meant to write. *)
Definition config_and_files (w : world)
    : (string * string * string * string) * gmap string fs_entry :=
  (config_of (self w), fs w).

(** The path of the detail endpoint. *)
Definition detail_path (E : env) (device_id : json) : string :=
  "/devices/" ++ py_str E device_id ++ "/detail-or-summary".

(** What [r.json().get(key, default)] evaluates to. *)
Definition document_member (key : string) (default : json) (r : response)
    : result json :=
  match body r with
  | None => Raise RequestsJSONDecodeError
  | Some doc => py_get doc key default
  end.

(** What the two read operations make of the final response. *)
Definition read_outcome (key : string) (default : json) (r : response)
    : result json :=
  if is_error_status (status_code r) then Raise (HTTPError (status_code r))
  else document_member key default r.

(** A method adds at most [n] calls to the log, each satisfying [P]. *)
Definition logs {A : Type} (n : nat) (P : request -> Prop) (m : M A) : Prop :=
  forall w : world,
    exists new : list request,
      net_log (snd (m w)) = (new ++ net_log w)%list
      /\ (length new <= n)%nat
      /\ Forall P new.

(** The two kinds of call: a POST with a timeout of 15 seconds, or any
    call with a timeout of 20 seconds. *)
Definition bounded_call (r : request) : Prop :=
  (req_method r = "POST" /\ req_timeout r = 15) \/ req_timeout r = 20.

Definition starts_with_slash (s : string) : bool :=
  match s with
  | String c _ => Ascii.eqb c slash
  | EmptyString => false
  end.

Fixpoint ends_with_slash (s : string) : bool :=
  match s with
  | EmptyString => false
  | String c EmptyString => Ascii.eqb c slash
  | String _ s' => ends_with_slash s'
  end.

(** The path of the command endpoint, the payload of a regeneration
    command and what a command makes of the final response. *)
Definition command_path (E : env) (device_id : json) : string :=
  "/devices/" ++ py_str E device_id ++ "/command".

(** The body the command methods share: resolve the device id, PUT the
    payload to the command endpoint, check the status, parse the answer. *)
Definition device_command (E : env) (payload : json) (label : string) : M json :=
  device_id <- _get_device_id E ;;
  response <- _request E "PUT" (command_path E device_id) (Some payload) ;;
  if negb (status_code response =? 200)
  then raise (IquaSoftenerException (InvalidStatus (status_code response) label))
  else response_json response.

Definition regenerate_payload (action : string) : json :=
  JObj [("function", JStr "regenerate"); ("action", JStr action)].

Definition command_outcome (label : string) (r : response) : result json :=
  if is_error_status (status_code r) then Raise (HTTPError (status_code r))
  else if negb (status_code r =? 200) then
    Raise (IquaSoftenerException (InvalidStatus (status_code r) label))
  else match body r with
       | Some doc => Ok doc
       | None => Raise RequestsJSONDecodeError
       end.

(** ** Sample worlds *)

(** A client after a login that returned the tokens ["a1"] and ["r1"],
    the access token expiring (margin included) at 1000. *)
Definition logged_in_client : client :=
  mkClient "user@example.com" "secret" "SN-1" DEFAULT_API_BASE_URL
    (Some (mkSession (Some "Bearer a1")))
    (JStr "a1") (JStr "r1") (JStr "u1") (JNum 1000) JNull.

Definition fresh_client : client :=
  __init__ "user@example.com" "secret" "SN-1" DEFAULT_API_BASE_URL.

Definition world_of (c : client) : world := mkWorld c ∅ [] 0%nat.

(** Every HTTP call is answered with the same response. *)
Definition always (r : response) : list request -> request -> net_outcome :=
  fun _ _ => NetResponse r.

(** A PyJWT that decodes ["t0"] to the payload [{"exp": 0}], ["t-none"]
    to [{}] and ["t3600"] to [{"exp": 3600}], and rejects the rest. *)
Definition sample_decode (token : json) : option pydict :=
  match token with
  | JStr s =>
      if String.eqb s "t0" then Some [("exp", JNum 0)]
      else if String.eqb s "t-none" then Some []
      else if String.eqb s "t3600" then Some [("exp", JNum 3600)]
      else None
  | _ => None
  end.

Definition sample_str (v : json) : string :=
  match v with
  | JNull => "None"
  | JBool true => "True"
  | JBool false => "False"
  | _ => ""
  end.

Definition sample_env (answers : list request -> request -> net_outcome)
    (now : Q) : env :=
  mkEnv answers (fun _ => now) (Some sample_decode) sample_str (fun _ => None)
    (fun path => negb (String.prefix "/missing/" path)) (Some 4300).

(** The server answers every call with 401, resp. 204, at time 0, when the
    access token of [logged_in_client] is still valid. *)
Definition env_401 : env := sample_env (always (mkResponse 401 "" None)) 0.
Definition env_204 : env := sample_env (always (mkResponse 204 "" None)) 0.

(** [logged_in_client] once its device id is resolved. *)
Definition resolved_client : client :=
  set__device_id (JStr "dev-1") logged_in_client.

(** The device list of an account with two softeners, and the same list
    after the second one came back under another id. *)
Definition sample_device (serial id : string) : json :=
  JObj [("id", JStr id);
        ("properties", JObj [("serial_number", JObj [("value", JStr serial)])])].

Definition two_devices : list json :=
  [sample_device "SN-0" "dev-0"; sample_device "SN-1" "dev-1"].

Definition two_devices_later : list json :=
  [sample_device "SN-0" "dev-0"; sample_device "SN-1" "dev-9"].

Definition devices_response (devices : list json) : response :=
  mkResponse 200 "" (Some (JObj [("data", JArr devices)])).

Definition env_devices (devices : list json) : env :=
  sample_env (always (devices_response devices)) 0.

(** A server that answers the login with an access token expiring at 3600
    and no refresh token, and every other call with the device list. *)
Definition sample_server (devices : list json)
    : list request -> request -> net_outcome :=
  fun _ req =>
    if String.eqb (req_url req) (DEFAULT_API_BASE_URL ++ "/auth/login")
    then NetResponse
           (mkResponse 200 ""
              (Some (JObj [("access_token", JStr "t3600"); ("user_id", JStr "u1")])))
    else NetResponse (devices_response devices).

(** The server answers every call with 500. *)
Definition env_500 : env := sample_env (always (mkResponse 500 "down" None)) 0.

(** The server answers every call with a token document that carries no
    refresh token. *)
Definition token_response : response :=
  mkResponse 200 ""
    (Some (JObj [("access_token", JStr "t3600"); ("user_id", JStr "u7")])).

Definition env_tokens : env := sample_env (always token_response) 0.

(** No call gets through. *)
Definition env_offline : env := sample_env (fun _ _ => NetRaise) 0.

(** The server answers every call with 200 and a body that is not JSON. *)
Definition env_not_json : env := sample_env (always (mkResponse 200 "<html>" None)) 0.

(** A fresh client next to a token file saved by [logged_in_client], and
    next to files that are no token documents. *)
Definition restart_world : world :=
  mkWorld fresh_client
    {[ "tokens.json" := FFile (FJson (tokens_blob logged_in_client));
       "list.json" := FFile (FJson (JArr [JStr "a1"]));
       "notes.txt" := FFile (FText "a1") ]}
    [] 0%nat.

(** A device list that names the serial twice and ends in an entry that is
    no device; and one whose only device has no id. *)
Definition devices_with_duplicate : list json :=
  [sample_device "SN-0" "dev-0"; sample_device "SN-1" "dev-1";
   sample_device "SN-1" "dev-9"; JStr "junk"].

Definition device_without_id : json :=
  JObj [("properties", JObj [("serial_number", JObj [("value", JStr "SN-1")])])].

(** A client that restored a refresh token only. *)
Definition refresh_only_client : client :=
  set__refresh_token (JStr "r1") fresh_client.

(** The server answers every call with 200 and the given document. *)
Definition env_document (doc : json) : env :=
  sample_env (always (mkResponse 200 "" (Some doc))) 0.


(** ** Proof support *)

Ltac run :=
  unfold bind, ret, raise, lift, get, modify, try_except, py_call; simpl.

(** ** The model at work *)

Example resolve_url_relative :
  resolve_url "https://api.myiquaapp.com/v1/" "/devices"
    = "https://api.myiquaapp.com/v1/devices".
Proof. reflexivity. Qed.

Example resolve_url_absolute :
  resolve_url DEFAULT_API_BASE_URL "https://example.com/x/"
    = "https://example.com/x/".
Proof. reflexivity. Qed.

(** A fresh client resolves its device id: one login, then the device
    list, fetched with the new bearer token. *)
Example fresh_client_resolves :
  let E := sample_env (sample_server two_devices) 0 in
  let w' := snd (_get_device_id E (world_of fresh_client)) in
  fst (_get_device_id E (world_of fresh_client)) = Ok (JStr "dev-1")
  /\ _access_expires_at (self w') = JNum 3540
  /\ _user_id (self w') = JStr "u1"
  /\ map (fun req => (req_method req, req_url req, req_authorization req))
        (net_log w')
     = [("GET", "https://api.myiquaapp.com/v1/devices", Some "Bearer t3600");
        ("POST", "https://api.myiquaapp.com/v1/auth/login", None)].
Proof. repeat split. Qed.

(** [self._refresh_token()] raises [TypeError] in every state, before any
    HTTP call. *)
Lemma self_refresh_token_call_raises (w : world) :
  self__refresh_token_call w
    = (Raise (TypeError "object is not callable"), w).
Proof. reflexivity. Qed.

(** ** Refresh without a refresh token *)

(** The function of the class body, reached as
    [IquaSoftener._refresh_token(client)]: in a state that holds no refresh
    token its guard raises IquaSoftenerException("No refresh token
    available") at once, in the world it found. *)
Lemma refresh_without_token (E : env) (w : world) :
  py_truthy (_refresh_token (self w)) = false ->
  IquaSoftener__refresh_token E w
    = (Raise (IquaSoftenerException NoRefreshTokenAvailable), w)
  /\ net_log (snd (IquaSoftener__refresh_token E w)) = net_log w.
Proof.
  intros Hnone.
  assert (Hrun : IquaSoftener__refresh_token E w
                 = (Raise (IquaSoftenerException NoRefreshTokenAvailable), w)).
  { unfold IquaSoftener__refresh_token. run. now rewrite Hnone. }
  split; [exact Hrun | now rewrite Hrun].
Qed.

Lemma refresh_without_token_witness :
  py_truthy (_refresh_token (self (world_of fresh_client))) = false
  /\ IquaSoftener__refresh_token (sample_env (always (mkResponse 200 "" None)) 0)
       (world_of fresh_client)
     = (Raise (IquaSoftenerException NoRefreshTokenAvailable),
        world_of fresh_client).
Proof.
  split; [reflexivity |].
  apply (refresh_without_token
           (sample_env (always (mkResponse 200 "" None)) 0)
           (world_of fresh_client)).
  reflexivity.
Defined.

(** C8: in a state that holds no refresh token, the call
    [client._refresh_token()] applies the stored attribute, [None] or an
    empty string, and raises [TypeError], which is no
    [IquaSoftenerException]; the guard of the function of the class body,
    which raises the authentication error, is not reached by it.  No HTTP
    call is made: the world, its log included, is the one the call
    found. *)
Theorem refresh_call_without_token (E : env) (w : world) :
  py_truthy (_refresh_token (self w)) = false ->
  self__refresh_token_call w
    = (Raise (TypeError "object is not callable"), w)
  /\ is_IquaSoftenerException (TypeError "object is not callable") = false
  /\ net_log (snd (self__refresh_token_call w)) = net_log w
  /\ IquaSoftener__refresh_token E w
     = (Raise (IquaSoftenerException NoRefreshTokenAvailable), w).
Proof.
  intros Hnone.
  split; [reflexivity |]. split; [reflexivity |]. split; [reflexivity |].
  unfold IquaSoftener__refresh_token. run. now rewrite Hnone.
Qed.

Lemma refresh_call_without_token_witness :
  py_truthy (_refresh_token (self (world_of fresh_client))) = false
  /\ fst (self__refresh_token_call (world_of fresh_client))
     = Raise (TypeError "object is not callable")
  /\ net_log (snd (self__refresh_token_call (world_of fresh_client))) = [].
Proof.
  split; [reflexivity |].
  destruct (refresh_call_without_token env_401 (world_of fresh_client) eq_refl)
    as (Hraise & _ & Hlog & _).
  rewrite Hraise. split; reflexivity.
Defined.

(** ** The token file: a missing path *)

(** C10: [load_tokens] on a path that does not exist returns normally and
    leaves the world, hence the four token attributes, as it was. *)
Theorem load_tokens_missing_path (w : world) (path : string) :
  fs w !! path = None ->
  load_tokens path w = (Ok tt, w).
Proof.
  intros Hmiss. unfold load_tokens, read_json. run. now rewrite Hmiss.
Qed.

Lemma load_tokens_missing_path_witness :
  fs (world_of logged_in_client) !! "tokens.json" = None
  /\ load_tokens "tokens.json" (world_of logged_in_client)
     = (Ok tt, world_of logged_in_client).
Proof.
  split; [reflexivity |].
  apply (load_tokens_missing_path (world_of logged_in_client) "tokens.json").
  reflexivity.
Defined.

(** ** Expiry check and authentication *)

Lemma is_token_expired_absent (E : env) (w : world) :
  py_truthy (_access_token (self w)) = false ->
  _is_token_expired E w = (Ok true, w).
Proof.
  intros Hno. unfold _is_token_expired. run. now rewrite Hno.
Qed.

Lemma is_token_expired_unknown (E : env) (w : world) :
  py_truthy (_access_token (self w)) = true ->
  _access_expires_at (self w) = JNull ->
  _is_token_expired E w = (Ok false, w).
Proof.
  intros Hyes Hnull. unfold _is_token_expired. run.
  rewrite Hyes; simpl. now rewrite Hnull.
Qed.

Lemma is_token_expired_known (E : env) (w : world) (d : Z) :
  py_truthy (_access_token (self w)) = true ->
  _access_expires_at (self w) = JNum d ->
  _is_token_expired E w
    = (Ok (Qle_bool (inject_Z d) (clock E (clock_reads w))),
       with_clock_reads S w).
Proof.
  intros Hyes Hnum. unfold _is_token_expired, time_time. run.
  rewrite Hyes; simpl. now rewrite Hnum.
Qed.

(** C1: with a refresh token held and the access token at or past its
    derived expiry, [_ensure_authenticated] evaluates [self._refresh_token()],
    which applies the stored token and raises [TypeError].  The handler for
    [IquaSoftenerException] does not cover it: no refresh request and no
    login request is made (the log of HTTP calls is unchanged), and the call
    aborts with the [TypeError]. *)
Theorem ensure_authenticated_refresh_held (E : env) (w : world) (d : Z) :
  py_truthy (_access_token (self w)) = true ->
  _access_expires_at (self w) = JNum d ->
  (inject_Z d <= clock E (clock_reads w))%Q ->
  py_truthy (_refresh_token (self w)) = true ->
  _ensure_authenticated E w
    = (Raise (TypeError "object is not callable"), with_clock_reads S w)
  /\ net_log (snd (_ensure_authenticated E w)) = net_log w.
Proof.
  intros Hacc Hexp Hpast Hheld.
  assert (Hrun : _ensure_authenticated E w
            = (Raise (TypeError "object is not callable"), with_clock_reads S w)).
  { unfold _ensure_authenticated, bind at 1.
    rewrite (is_token_expired_known E w d Hacc Hexp).
    apply Qle_bool_iff in Hpast. rewrite Hpast.
    unfold self__refresh_token_call. run. now rewrite Hheld. }
  split; [exact Hrun | now rewrite Hrun].
Qed.

Lemma ensure_authenticated_refresh_held_witness :
  py_truthy (_access_token (self (world_of logged_in_client))) = true
  /\ _access_expires_at (self (world_of logged_in_client)) = JNum 1000
  /\ (inject_Z 1000 <= 2000)%Q
  /\ py_truthy (_refresh_token (self (world_of logged_in_client))) = true
  /\ _ensure_authenticated (sample_env (always (mkResponse 200 "" None)) 2000)
       (world_of logged_in_client)
     = (Raise (TypeError "object is not callable"),
        with_clock_reads S (world_of logged_in_client)).
Proof.
  assert (Hpast : (inject_Z 1000 <= 2000)%Q) by (apply Qle_bool_iff; reflexivity).
  split; [reflexivity |]. split; [reflexivity |].
  split; [exact Hpast |]. split; [reflexivity |].
  apply (ensure_authenticated_refresh_held
           (sample_env (always (mkResponse 200 "" None)) 2000)
           (world_of logged_in_client) 1000);
    try reflexivity; exact Hpast.
Defined.

(** ** The request pipeline *)

(** The common prefix of [_request]: authentication, session, first
    attempt. *)
Ltac first_attempt Hauth Hsess Hs Hnet :=
  unfold _request, bind at 1; rewrite Hauth;
  unfold bind at 1; rewrite Hsess;
  unfold bind at 1, get at 1;
  unfold bind at 1, session_request at 1, bind at 1, get at 1;
  rewrite Hs; unfold pipeline_call in Hnet; rewrite Hnet;
  unfold bind at 1, get at 1; cbn [self with_net_log].

(** C2: when the first attempt is answered 401 while a refresh token is
    held, [_request] evaluates [self._refresh_token()], which raises
    [TypeError]; the handler for [IquaSoftenerException] does not cover it.
    The log holds the first attempt and nothing else: no refresh, no login
    and no retry. *)
Theorem request_unauthorized_refresh_held (E : env) (w w1 w2 : world)
    (sess : session) (method path : string) (payload : option json)
    (r : response) :
  _ensure_authenticated E w = (Ok tt, w1) ->
  _ensure_session w1 = (Ok tt, w2) ->
  _session (self w2) = Some sess ->
  transport E (net_log w2) (pipeline_call w2 sess method path payload)
    = NetResponse r ->
  status_code r = 401 ->
  py_truthy (_refresh_token (self w2)) = true ->
  _request E method path payload w
    = (Raise (TypeError "object is not callable"),
       with_net_log (cons (pipeline_call w2 sess method path payload)) w2).
Proof.
  intros Hauth Hsess Hs Hnet H401 Hheld.
  first_attempt Hauth Hsess Hs Hnet.
  rewrite H401, Hheld. reflexivity.
Qed.

Lemma request_unauthorized_refresh_held_witness :
  let w := world_of logged_in_client in
  let w1 := with_clock_reads S w in
  let sess := mkSession (Some "Bearer a1") in
  _ensure_authenticated env_401 w = (Ok tt, w1)
  /\ _ensure_session w1 = (Ok tt, w1)
  /\ _session (self w1) = Some sess
  /\ transport env_401 (net_log w1) (pipeline_call w1 sess "GET" "/devices" None)
      = NetResponse (mkResponse 401 "" None)
  /\ py_truthy (_refresh_token (self w1)) = true
  /\ _request env_401 "GET" "/devices" None w
      = (Raise (TypeError "object is not callable"),
         with_net_log (cons (pipeline_call w1 sess "GET" "/devices" None)) w1).
Proof.
  intros w w1 sess.
  do 5 (split; [reflexivity |]).
  apply (request_unauthorized_refresh_held env_401 w w1 w1 sess
           "GET" "/devices" None (mkResponse 401 "" None));
    reflexivity.
Defined.

Lemma request_no_recovery (E : env) (w w1 w2 : world)
    (sess : session) (method path : string) (payload : option json)
    (r : response) :
  _ensure_authenticated E w = (Ok tt, w1) ->
  _ensure_session w1 = (Ok tt, w2) ->
  _session (self w2) = Some sess ->
  transport E (net_log w2) (pipeline_call w2 sess method path payload)
    = NetResponse r ->
  (status_code r =? 401) && py_truthy (_refresh_token (self w2)) = false ->
  _request E method path payload w
    = (request_outcome r,
       with_net_log (cons (pipeline_call w2 sess method path payload)) w2).
Proof.
  intros Hauth Hsess Hs Hnet Hplain.
  first_attempt Hauth Hsess Hs Hnet.
  rewrite Hplain. unfold request_outcome, is_error_status, raise_for_status.
  run. destruct (status_code r =? 200) eqn:H200; simpl.
  - apply Z.eqb_eq in H200. rewrite H200. reflexivity.
  - destruct ((400 <=? status_code r) && (status_code r <? 600)); reflexivity.
Qed.

Lemma get_device_id_cached (E : env) (w : world) :
  _device_id (self w) <> JNull ->
  _get_device_id E w = (Ok (_device_id (self w)), w).
Proof.
  intros Hset. unfold _get_device_id. run.
  destruct (_device_id (self w)); try reflexivity. contradiction.
Qed.


(** ** Token expiry *)

(** [_set_tokens] always returns; it stores both tokens, leaves the expiry
    to [derive_expiry] and touches neither the log nor the clock. *)
Lemma set_tokens_fields (E : env) (w : world) (tok rt : json) :
  exists w' : world,
    _set_tokens E tok rt w = (Ok tt, w')
    /\ _access_token (self w') = tok
    /\ _refresh_token (self w') = rt
    /\ _access_expires_at (self w')
        = _access_expires_at (self (snd (derive_expiry E tok w)))
    /\ net_log w' = net_log w
    /\ clock_reads w' = clock_reads w.
Proof.
  unfold _set_tokens, derive_expiry, _ensure_session,
    headers_update_authorization.
  destruct w as [[u p sn base sess acc ref uid exp0 dev] files log reads].
  run.
  destruct (jwt E) as [dec |]; [destruct (dec tok) as [decoded |] |]; simpl;
    try destruct (py_truthy (dict_get_or decoded "exp" JNull)); simpl;
    try destruct (py_int E (dict_get_or decoded "exp" JNull)); simpl;
    destruct sess; simpl;
    destruct (py_truthy tok); simpl;
    eexists; repeat split; reflexivity.
Qed.

Lemma derive_expiry_undecodable (E : env) (w : world) (tok : json)
    (dec : json -> option pydict) :
  jwt E = Some dec ->
  dec tok = None ->
  derive_expiry E tok w = (Ok tt, with_self (set__access_expires_at JNull) w).
Proof.
  intros Hjwt Hdec. unfold derive_expiry. now rewrite Hjwt, Hdec.
Qed.

Lemma derive_expiry_falsy_exp (E : env) (w : world) (tok : json)
    (dec : json -> option pydict) (decoded : pydict) :
  jwt E = Some dec ->
  dec tok = Some decoded ->
  py_truthy (dict_get_or decoded "exp" JNull) = false ->
  derive_expiry E tok w = (Ok tt, w).
Proof.
  intros Hjwt Hdec Hexp. unfold derive_expiry.
  now rewrite Hjwt, Hdec, Hexp.
Qed.

Lemma derive_expiry_numeric_exp (E : env) (w : world) (tok : json)
    (dec : json -> option pydict) (decoded : pydict) (exp : Z) :
  jwt E = Some dec ->
  dec tok = Some decoded ->
  dict_get decoded "exp" = Some (JNum exp) ->
  exp <> 0 ->
  derive_expiry E tok w
    = (Ok tt, with_self (set__access_expires_at (JNum (exp - 60))) w).
Proof.
  intros Hjwt Hdec Hexp Hnz. unfold derive_expiry, dict_get_or.
  rewrite Hjwt, Hdec, Hexp. simpl.
  apply Z.eqb_neq in Hnz. now rewrite Hnz.
Qed.

(** C4: when the new access token decodes to a payload without an [exp]
    claim, [_set_tokens] leaves the derived expiry of the previous token in
    place; the new token is then judged by that stale instant, and is
    expired as soon as the clock has reached it. *)
Theorem set_tokens_without_exp_keeps_expiry (E : env) (w : world)
    (tok rt : json) (dec : json -> option pydict) (decoded : pydict) (d : Z) :
  jwt E = Some dec ->
  dec tok = Some decoded ->
  dict_get decoded "exp" = None ->
  py_truthy tok = true ->
  _access_expires_at (self w) = JNum d ->
  fst (_set_tokens E tok rt w) = Ok tt
  /\ _access_expires_at (self (snd (_set_tokens E tok rt w))) = JNum d
  /\ fst (_is_token_expired E (snd (_set_tokens E tok rt w)))
     = Ok (Qle_bool (inject_Z d) (clock E (clock_reads w))).
Proof.
  intros Hjwt Hdec Hnone Htok Hold.
  destruct (set_tokens_fields E w tok rt)
    as (w' & Hrun & Hacc & _ & Hexp & _ & Hreads).
  rewrite Hrun; simpl.
  rewrite (derive_expiry_falsy_exp E w tok dec decoded Hjwt Hdec) in Hexp
    by (unfold dict_get_or; now rewrite Hnone).
  simpl in Hexp. rewrite Hold in Hexp.
  split; [reflexivity |]. split; [exact Hexp |].
  rewrite (is_token_expired_known E w' d); [| now rewrite Hacc | exact Hexp].
  simpl. now rewrite Hreads.
Qed.

Lemma set_tokens_without_exp_keeps_expiry_witness :
  let E := sample_env (always (mkResponse 200 "" None)) 2000 in
  let w := world_of logged_in_client in
  jwt E = Some sample_decode
  /\ sample_decode (JStr "t-none") = Some []
  /\ dict_get [] "exp" = None
  /\ py_truthy (JStr "t-none") = true
  /\ _access_expires_at (self w) = JNum 1000
  /\ _access_expires_at (self (snd (_set_tokens E (JStr "t-none") (JStr "r2") w)))
     = JNum 1000
  /\ fst (_is_token_expired E (snd (_set_tokens E (JStr "t-none") (JStr "r2") w)))
     = Ok true.
Proof.
  intros E w.
  do 5 (split; [reflexivity |]).
  destruct (set_tokens_without_exp_keeps_expiry E w (JStr "t-none") (JStr "r2")
              sample_decode [] 1000) as (_ & Hkept & Hexpired);
    try reflexivity.
  split; [exact Hkept | exact Hexpired].
Defined.

(** C5 as stated fails for the numeric claim [exp = 0]: [if exp:] takes it
    for an absent claim, the derived expiry of a fresh client stays [None]
    instead of becoming -60, and the token is judged valid at time 0. *)
Lemma set_tokens_exp_zero :
  let E := sample_env (always (mkResponse 200 "" None)) 0 in
  let w' := snd (_set_tokens E (JStr "t0") JNull (world_of fresh_client)) in
  sample_decode (JStr "t0") = Some [("exp", JNum 0)]
  /\ _access_expires_at (self w') = JNull
  /\ _access_expires_at (self w') <> JNum (0 - 60)
  /\ fst (_is_token_expired E w') = Ok false.
Proof.
  intros E w'. repeat split; try reflexivity. discriminate.
Qed.

(** C5, amended: for a token whose payload carries a nonzero integer [exp]
    claim, [_set_tokens] stores [exp - 60] as derived expiry, and the token
    is judged expired exactly when the clock is at or past that instant.
    In any state, no access token means expired, an access token with
    unknown expiry means valid, and an access token with derived expiry d
    means expired exactly when d <= now.  With [exp = t + 3600] the derived
    expiry is [t + 3540], and the token is expired at [t + 3541]. *)
Theorem derived_expiry_and_expiration (E : env) (w : world) (tok rt : json)
    (dec : json -> option pydict) (decoded : pydict) (exp : Z) :
  jwt E = Some dec ->
  dec tok = Some decoded ->
  dict_get decoded "exp" = Some (JNum exp) ->
  exp <> 0 ->
  py_truthy tok = true ->
  let w' := snd (_set_tokens E tok rt w) in
  fst (_set_tokens E tok rt w) = Ok tt
  /\ _access_expires_at (self w') = JNum (exp - 60)
  /\ (exists b : bool,
        fst (_is_token_expired E w') = Ok b
        /\ (b = true <-> (inject_Z (exp - 60) <= clock E (clock_reads w'))%Q))
  /\ (forall w0 : world,
        py_truthy (_access_token (self w0)) = false ->
        fst (_is_token_expired E w0) = Ok true)
  /\ (forall w0 : world,
        py_truthy (_access_token (self w0)) = true ->
        _access_expires_at (self w0) = JNull ->
        fst (_is_token_expired E w0) = Ok false)
  /\ (forall (w0 : world) (d : Z),
        py_truthy (_access_token (self w0)) = true ->
        _access_expires_at (self w0) = JNum d ->
        exists b : bool,
          fst (_is_token_expired E w0) = Ok b
          /\ (b = true <-> (inject_Z d <= clock E (clock_reads w0))%Q))
  /\ (forall t : Z,
        exp = t + 3600 ->
        _access_expires_at (self w') = JNum (t + 3540)
        /\ (clock E (clock_reads w') = inject_Z (t + 3541) ->
            fst (_is_token_expired E w') = Ok true)).
Proof.
  intros Hjwt Hdec Hexp Hnz Htok w'.
  destruct (set_tokens_fields E w tok rt)
    as (w1 & Hrun & Hacc & _ & Hstored & _ & _).
  assert (Hw' : w' = w1) by (unfold w'; now rewrite Hrun).
  rewrite (derive_expiry_numeric_exp E w tok dec decoded exp
             Hjwt Hdec Hexp Hnz) in Hstored.
  simpl in Hstored. rewrite <- Hw' in Hacc, Hstored.
  assert (Hknown : forall (w0 : world) (d : Z),
            py_truthy (_access_token (self w0)) = true ->
            _access_expires_at (self w0) = JNum d ->
            exists b : bool,
              fst (_is_token_expired E w0) = Ok b
              /\ (b = true <-> (inject_Z d <= clock E (clock_reads w0))%Q)).
  { intros w0 d Hheld Hd. rewrite (is_token_expired_known E w0 d Hheld Hd).
    eexists. split; [reflexivity |]. apply Qle_bool_iff. }
  assert (Hheld' : py_truthy (_access_token (self w')) = true)
    by now rewrite Hacc.
  split; [now rewrite Hrun |].
  split; [exact Hstored |].
  split; [exact (Hknown w' (exp - 60) Hheld' Hstored) |].
  split; [intros w0 Hno; now rewrite (is_token_expired_absent E w0 Hno) |].
  split; [intros w0 Hyes Hnull;
          now rewrite (is_token_expired_unknown E w0 Hyes Hnull) |].
  split; [exact Hknown |].
  intros t ->.
  replace (t + 3600 - 60) with (t + 3540) in Hstored by lia.
  split; [exact Hstored |].
  intros Hnow.
  rewrite (is_token_expired_known E w' (t + 3540) Hheld' Hstored).
  simpl. f_equal. apply Qle_bool_iff. rewrite Hnow.
  rewrite <- Zle_Qle. lia.
Qed.

Lemma derived_expiry_and_expiration_witness :
  let E := sample_env (always (mkResponse 200 "" None)) (inject_Z 3541) in
  let w := world_of fresh_client in
  let w' := snd (_set_tokens E (JStr "t3600") JNull w) in
  let unknown := world_of (set__access_expires_at JNull logged_in_client) in
  jwt E = Some sample_decode
  /\ sample_decode (JStr "t3600") = Some [("exp", JNum 3600)]
  /\ dict_get [("exp", JNum 3600)] "exp" = Some (JNum 3600)
  /\ 3600 <> 0
  /\ py_truthy (JStr "t3600") = true
  /\ py_truthy (_access_token (self w)) = false
  /\ py_truthy (_access_token (self unknown)) = true
  /\ _access_expires_at (self unknown) = JNull
  /\ 3600 = 0 + 3600
  /\ clock E (clock_reads w') = inject_Z (0 + 3541)
  /\ _access_expires_at (self w') = JNum (0 + 3540)
  /\ fst (_is_token_expired E w') = Ok true
  /\ fst (_is_token_expired E w) = Ok true
  /\ fst (_is_token_expired E unknown) = Ok false.
Proof.
  intros E w w' unknown.
  do 3 (split; [reflexivity |]). split; [discriminate |].
  do 6 (split; [reflexivity |]).
  destruct (derived_expiry_and_expiration E w (JStr "t3600") JNull
              sample_decode [("exp", JNum 3600)] 3600)
    as (_ & _ & _ & Habsent & Hunknown & _ & Hexample);
    try reflexivity; try discriminate.
  destruct (Hexample 0) as [Hstored Hexpired]; [reflexivity |].
  split; [exact Hstored |].
  split; [apply Hexpired; reflexivity |].
  split; [apply Habsent; reflexivity |].
  apply Hunknown; reflexivity.
Defined.

(** ** The token file: save and restore *)

(** [save_tokens] where [json.dump] raises, and [load_tokens] of the file
    it leaves. *)
Lemma save_tokens_undumpable (E : env) (w : world) (path : string) :
  fs w !! path <> Some FNoAccess ->
  writable E path = true ->
  json_dumpable E (tokens_blob (self w)) = false ->
  save_tokens E path w
    = (Raise (ValueError "Exceeds the limit for integer string conversion"),
       with_fs (insert path (FFile (FPartial (tokens_blob (self w))))) w).
Proof.
  intros Hfile Hwritable Hdump. unfold save_tokens.
  rewrite Hwritable, Hdump.
  destruct (fs w !! path) as [[c |] |]; try reflexivity. contradiction.
Qed.

Lemma load_tokens_partial (w : world) (path : string) (doc : json) :
  fs w !! path = Some (FFile (FPartial doc)) ->
  load_tokens path w = (Raise JSONDecodeError, w).
Proof.
  intros Hcut. unfold load_tokens, read_json. run. now rewrite Hcut.
Qed.

Lemma world_of_fs (c : client) (path : string) : fs (world_of c) !! path = None.
Proof. unfold world_of. cbn [fs]. apply lookup_empty. Qed.

Lemma fs_with_fs (f : gmap string fs_entry -> gmap string fs_entry) (w : world) :
  fs (with_fs f w) = f (fs w).
Proof. reflexivity. Qed.

Lemma int_printable_within (E : env) (digits n : Z) :
  int_max_str_digits E = Some digits ->
  4 <= digits ->
  Z.abs n < 10000 ->
  int_printable E n = true.
Proof.
  intros Hlimit Hdigits Hsmall. unfold int_printable. rewrite Hlimit.
  apply Z.ltb_lt. apply (Z.lt_le_trans _ (10 ^ 4)); [exact Hsmall |].
  apply Z.pow_le_mono_r; lia.
Qed.

Lemma int_printable_beyond (E : env) (digits n : Z) :
  int_max_str_digits E = Some digits ->
  10 ^ digits <= Z.abs n ->
  int_printable E n = false.
Proof.
  intros Hlimit Hlarge. unfold int_printable. rewrite Hlimit.
  now apply Z.ltb_ge.
Qed.

Lemma tokens_blob_dumpable (E : env) (c : client) :
  json_dumpable E (_access_token c) = true ->
  json_dumpable E (_refresh_token c) = true ->
  json_dumpable E (_user_id c) = true ->
  json_dumpable E (_access_expires_at c) = true ->
  json_dumpable E (tokens_blob c) = true.
Proof.
  intros Ha Hr Hu He. unfold tokens_blob. simpl.
  now rewrite Ha, Hr, Hu, He.
Qed.

Lemma tokens_blob_undumpable (E : env) (c : client) :
  json_dumpable E (_access_expires_at c) = false ->
  json_dumpable E (tokens_blob c) = false.
Proof.
  intros He. unfold tokens_blob. simpl. rewrite He.
  now rewrite !andb_false_r.
Qed.

(** C6 as stated fails: with the derived expiry [-10^4300 - 59], which
    [_set_tokens] stores for the claim [exp = -(10^4300 - 1)], an int of
    4301 digits, [json.dump] raises [ValueError] and leaves a truncated
    file, and [load_tokens] of that file raises instead of restoring the
    state. *)
Lemma save_tokens_huge_expiry :
  let E := sample_env (always (mkResponse 200 "" None)) 0 in
  let w := world_of (set__access_expires_at (JNum (- 10 ^ 4300 - 59))
                       logged_in_client) in
  - (10 ^ 4300 - 1) - 60 = - 10 ^ 4300 - 59
  /\ fst (save_tokens E "tokens.json" w)
     = Raise (ValueError "Exceeds the limit for integer string conversion")
  /\ fst (load_tokens "tokens.json" (snd (save_tokens E "tokens.json" w)))
     = Raise JSONDecodeError.
Proof.
  intros E w.
  assert (Hpos : 0 < 10 ^ 4300) by (apply Z.pow_pos_nonneg; lia).
  assert (Hdump : json_dumpable E (tokens_blob (self w)) = false).
  { apply tokens_blob_undumpable.
    apply (int_printable_beyond E 4300); [reflexivity |].
    revert Hpos. generalize (10 ^ 4300). intros p Hpos. lia. }
  assert (Hsave : save_tokens E "tokens.json" w
            = (Raise (ValueError "Exceeds the limit for integer string conversion"),
               with_fs (insert "tokens.json"
                          (FFile (FPartial (tokens_blob (self w))))) w)).
  { apply save_tokens_undumpable; [| reflexivity | exact Hdump].
    unfold w. rewrite world_of_fs. discriminate. }
  split; [revert Hpos; generalize (10 ^ 4300); intros p Hpos; lia |].
  rewrite Hsave. split; [reflexivity |].
  rewrite (load_tokens_partial _ "tokens.json" (tokens_blob (self w)));
    [reflexivity |].
  cbn [snd]. rewrite fs_with_fs. apply lookup_insert_eq.
Qed.

(** C6, amended: when [open] can write the path and [json.dump] converts
    every int of the state, [save_tokens] followed by [load_tokens] of the
    same path, in any client that sees the saved file, restores the four
    token attributes of the saving client; and [load_tokens] of a JSON
    object sets each attribute to the value of its key, or to [None] when
    the key is missing. *)
Theorem save_load_tokens (E : env) (w : world) (path : string) :
  fs w !! path <> Some FNoAccess ->
  writable E path = true ->
  json_dumpable E (tokens_blob (self w)) = true ->
  (exists w1 : world,
     save_tokens E path w = (Ok tt, w1)
     /\ self w1 = self w
     /\ forall w2 : world,
          fs w2 !! path = fs w1 !! path ->
          exists w3 : world,
            load_tokens path w2 = (Ok tt, w3)
            /\ _access_token (self w3) = _access_token (self w)
            /\ _refresh_token (self w3) = _refresh_token (self w)
            /\ _user_id (self w3) = _user_id (self w)
            /\ _access_expires_at (self w3) = _access_expires_at (self w))
  /\ (forall (w2 : world) (blob : pydict),
        fs w2 !! path = Some (FFile (FJson (JObj blob))) ->
        exists w3 : world,
          load_tokens path w2 = (Ok tt, w3)
          /\ _access_token (self w3) = default JNull (dict_get blob "access_token")
          /\ _refresh_token (self w3) = default JNull (dict_get blob "refresh_token")
          /\ _user_id (self w3) = default JNull (dict_get blob "user_id")
          /\ _access_expires_at (self w3)
             = default JNull (dict_get blob "_access_expires_at")).
Proof.
  intros Hfile Hwritable Hdumpable.
  assert (Hload : forall (w2 : world) (blob : pydict),
            fs w2 !! path = Some (FFile (FJson (JObj blob))) ->
            exists w3 : world,
              load_tokens path w2 = (Ok tt, w3)
              /\ _access_token (self w3) = default JNull (dict_get blob "access_token")
              /\ _refresh_token (self w3) = default JNull (dict_get blob "refresh_token")
              /\ _user_id (self w3) = default JNull (dict_get blob "user_id")
              /\ _access_expires_at (self w3)
                 = default JNull (dict_get blob "_access_expires_at")).
  { intros w2 blob Hblob. unfold load_tokens, read_json. run.
    rewrite Hblob. unfold dict_get_or.
    eexists. split; [reflexivity |]. simpl. repeat split. }
  split; [| exact Hload].
  exists (with_fs (insert path (FFile (FJson (tokens_blob (self w))))) w).
  split.
  { unfold save_tokens. rewrite Hwritable, Hdumpable.
    destruct (fs w !! path) as [[c |] |]; try reflexivity. contradiction. }
  split; [reflexivity |].
  intros w2 Hsame. simpl in Hsame. rewrite lookup_insert_eq in Hsame.
  destruct (Hload w2 _ Hsame) as (w3 & Hrun & Ha & Hr & Hu & He).
  exists w3. split; [exact Hrun |]. simpl in Ha, Hr, Hu, He. auto.
Qed.

Lemma save_load_tokens_witness :
  let E := sample_env (always (mkResponse 200 "" None)) 0 in
  let w := world_of logged_in_client in
  let w2 := mkWorld fresh_client (fs (snd (save_tokens E "tokens.json" w))) [] 0%nat in
  let partial :=
    mkWorld logged_in_client
      {[ "partial.json" := FFile (FJson (JObj [("access_token", JStr "a9")])) ]}
      [] 0%nat in
  fs w !! "tokens.json" <> Some FNoAccess
  /\ writable E "tokens.json" = true
  /\ json_dumpable E (tokens_blob (self w)) = true
  /\ fs w2 !! "tokens.json" = fs (snd (save_tokens E "tokens.json" w)) !! "tokens.json"
  /\ (exists w3 : world,
        load_tokens "tokens.json" w2 = (Ok tt, w3)
        /\ _access_token (self w3) = JStr "a1"
        /\ _refresh_token (self w3) = JStr "r1"
        /\ _user_id (self w3) = JStr "u1"
        /\ _access_expires_at (self w3) = JNum 1000)
  /\ (exists w3 : world,
        load_tokens "partial.json" partial = (Ok tt, w3)
        /\ _access_token (self w3) = JStr "a9"
        /\ _refresh_token (self w3) = JNull
        /\ _user_id (self w3) = JNull
        /\ _access_expires_at (self w3) = JNull).
Proof.
  intros E w w2 partial.
  assert (Hdumpable : json_dumpable E (tokens_blob (self w)) = true).
  { apply tokens_blob_dumpable; [reflexivity | reflexivity | reflexivity |].
    apply (int_printable_within E 4300); [reflexivity | lia | reflexivity]. }
  split; [discriminate |]. split; [reflexivity |]. split; [exact Hdumpable |].
  split; [reflexivity |].
  split.
  - destruct (save_load_tokens E w "tokens.json")
      as [(w1 & Hsave & _ & Hback) _];
      [discriminate | reflexivity | exact Hdumpable |].
    apply (Hback w2).
    replace w1 with (snd (save_tokens E "tokens.json" w)) by now rewrite Hsave.
    reflexivity.
  - destruct (save_load_tokens E partial "partial.json") as [_ Hblob];
      [discriminate | reflexivity | exact Hdumpable |].
    apply (Hblob partial [("access_token", JStr "a9")]). reflexivity.
Defined.

(** ** The configuration never changes

    [__init__] alone binds the credentials, the serial number and the base
    URL; every method leaves them as they are, whether it returns or
    raises. *)

Lemma keeps_ret {A : Type} (a : A) : keeps_config (ret a).
Proof. intros w. reflexivity. Qed.

Lemma keeps_raise {A : Type} (e : exn) : keeps_config (@raise A e).
Proof. intros w. reflexivity. Qed.

Lemma keeps_lift {A : Type} (r : result A) : keeps_config (lift r).
Proof. intros w. reflexivity. Qed.

Lemma keeps_get {A : Type} (f : client -> A) : keeps_config (get f).
Proof. intros w. reflexivity. Qed.

Lemma keeps_modify (f : client -> client) :
  (forall c, config_of (f c) = config_of c) -> keeps_config (modify f).
Proof. intros Hf w. apply Hf. Qed.

Lemma keeps_bind {A B : Type} (m : M A) (k : A -> M B) :
  keeps_config m -> (forall a, keeps_config (k a)) -> keeps_config (bind m k).
Proof.
  intros Hm Hk w. unfold bind. specialize (Hm w).
  destruct (m w) as [[a | e] w1]; simpl in *.
  - now rewrite (Hk a w1).
  - exact Hm.
Qed.

Lemma keeps_try_except {A : Type} (m h : M A) (covers : exn -> bool) :
  keeps_config m -> keeps_config h -> keeps_config (try_except m covers h).
Proof.
  intros Hm Hh w. unfold try_except. specialize (Hm w).
  destruct (m w) as [[a | e] w1]; simpl in *; [exact Hm |].
  destruct (covers e); simpl; [now rewrite (Hh w1) | exact Hm].
Qed.

Lemma keeps_time_time (E : env) : keeps_config (time_time E).
Proof. intros w. reflexivity. Qed.

Lemma keeps_session_request (E : env) (method url : string) (timeout : Z)
    (payload : option json) :
  keeps_config (session_request E method url timeout payload).
Proof.
  intros w. unfold session_request. run.
  destruct (_session (self w)); [| reflexivity].
  destruct (transport E _ _); reflexivity.
Qed.

Lemma keeps_response_json (r : response) : keeps_config (response_json r).
Proof. intros w. unfold response_json. destruct (body r); reflexivity. Qed.

Create HintDb keeps.
#[local] Hint Resolve keeps_ret keeps_raise keeps_lift keeps_get
  keeps_time_time keeps_session_request keeps_response_json : keeps.

(** Follows the shape of a method body: binds, handlers and branches. *)
Ltac keeps :=
  repeat first
    [ progress auto with keeps
    | apply keeps_bind; [| intros ?]
    | apply keeps_try_except
    | apply keeps_modify; intros []; reflexivity
    | match goal with
      | |- keeps_config (match ?x with _ => _ end) => destruct x
      | |- keeps_config (let _ := _ in _) => cbv zeta
      end ].

Lemma keeps_ensure_session : keeps_config _ensure_session.
Proof. unfold _ensure_session. keeps. Qed.

Lemma keeps_set_tokens (E : env) (tok rt : json) :
  keeps_config (_set_tokens E tok rt).
Proof.
  pose proof keeps_ensure_session.
  unfold _set_tokens, derive_expiry, headers_update_authorization. keeps.
Qed.

Lemma keeps_is_token_expired (E : env) : keeps_config (_is_token_expired E).
Proof. unfold _is_token_expired. keeps. Qed.

Lemma keeps_login (E : env) : keeps_config (_login E).
Proof.
  pose proof keeps_ensure_session. pose proof (keeps_set_tokens E).
  unfold _login. keeps.
Qed.

Lemma keeps_ensure_authenticated (E : env) :
  keeps_config (_ensure_authenticated E).
Proof.
  pose proof (keeps_is_token_expired E). pose proof (keeps_login E).
  unfold _ensure_authenticated, self__refresh_token_call, py_call. keeps.
Qed.

Lemma keeps_request (E : env) (method path : string) (payload : option json) :
  keeps_config (_request E method path payload).
Proof.
  pose proof keeps_ensure_session. pose proof (keeps_login E).
  pose proof (keeps_ensure_authenticated E).
  unfold _request, self__refresh_token_call, py_call, raise_for_status. keeps.
Qed.

Lemma keeps_get_devices (E : env) : keeps_config (_get_devices E).
Proof.
  pose proof (keeps_request E).
  unfold _get_devices. keeps.
Qed.

(** ** Device-id resolution *)

Lemma find_device_unique (serial : string) (devices : list json)
    (device id : json) (w : world) :
  Forall (fun d => exists v, device_serial_of d = Ok v) devices ->
  List.filter (serial_matches serial) devices = [device] ->
  py_getitem device "id" = Ok id ->
  find_device serial devices w = (Ok id, with_self (set__device_id id) w).
Proof.
  intros Hshape. induction Hshape as [| d rest [v Hv] _ IH]; intros Hone Hid.
  - discriminate.
  - simpl in Hone. simpl. run. unfold serial_matches in Hone.
    rewrite Hv in *. destruct (py_eq_str v serial).
    + injection Hone as -> _. now rewrite Hid.
    + now apply IH.
Qed.

Lemma find_device_no_match (serial : string) (devices : list json) (w : world) :
  Forall (fun d => exists v, device_serial_of d = Ok v) devices ->
  List.filter (serial_matches serial) devices = [] ->
  find_device serial devices w
    = (Raise (IquaSoftenerException (DeviceNotFound serial)), w).
Proof.
  intros Hshape. induction Hshape as [| d rest [v Hv] _ IH]; intros Hnone.
  - reflexivity.
  - simpl in Hnone. simpl. run. unfold serial_matches in Hnone.
    rewrite Hv in *. destruct (py_eq_str v serial).
    + discriminate.
    + now apply IH.
Qed.

(** C7: with an empty cache and a device list in which exactly one device
    has the configured serial, [_get_device_id] returns the id of that
    device and stores it; with no such device it raises "not found"; and
    once an id is stored, every later resolution returns it and leaves the
    world, the log of HTTP calls included, as it was, whatever the server
    would answer. *)
Theorem device_id_resolution (E : env) (w w' : world) (devices : list json) :
  _device_id (self w) = JNull ->
  _get_devices E w = (Ok (JArr devices), w') ->
  Forall (fun d => exists v, device_serial_of d = Ok v) devices ->
  let serial := _device_serial_number (self w) in
  (forall device id : json,
     List.filter (serial_matches serial) devices = [device] ->
     py_getitem device "id" = Ok id ->
     _get_device_id E w = (Ok id, with_self (set__device_id id) w')
     /\ _device_id (self (with_self (set__device_id id) w')) = id)
  /\ (List.filter (serial_matches serial) devices = [] ->
      _get_device_id E w
        = (Raise (IquaSoftenerException (DeviceNotFound serial)), w'))
  /\ (forall (E' : env) (w'' : world),
        _device_id (self w'') <> JNull ->
        _get_device_id E' w'' = (Ok (_device_id (self w'')), w'')
        /\ net_log (snd (_get_device_id E' w'')) = net_log w'').
Proof.
  intros Hempty Hlist Hshape serial.
  assert (Hserial : _device_serial_number (self w') = serial).
  { pose proof (keeps_get_devices E w) as Hkeep. rewrite Hlist in Hkeep.
    unfold config_of in Hkeep. simpl in Hkeep. now injection Hkeep. }
  assert (Hrun : _get_device_id E w = find_device serial devices w').
  { unfold _get_device_id, bind at 1, get at 1. rewrite Hempty.
    unfold bind at 1. rewrite Hlist. run. now rewrite Hserial. }
  split; [| split].
  - intros device id Hone Hid. split; [| reflexivity].
    rewrite Hrun. now apply (find_device_unique serial devices device).
  - intros Hnone. rewrite Hrun. now apply find_device_no_match.
  - intros E' w'' Hset.
    pose proof (get_device_id_cached E' w'' Hset) as Hcached.
    split; [exact Hcached | now rewrite Hcached].
Qed.

Lemma device_id_resolution_witness :
  let E := env_devices two_devices in
  let w := world_of logged_in_client in
  let w' := snd (_get_devices E w) in
  let lost := world_of (mkClient "user@example.com" "secret" "SN-7"
                          DEFAULT_API_BASE_URL None JNull JNull JNull JNull JNull) in
  _device_id (self w) = JNull
  /\ _get_devices E w = (Ok (JArr two_devices), w')
  /\ List.filter (serial_matches "SN-1") two_devices = [sample_device "SN-1" "dev-1"]
  /\ py_getitem (sample_device "SN-1" "dev-1") "id" = Ok (JStr "dev-1")
  /\ List.filter (serial_matches "SN-7") two_devices = []
  /\ _device_id (self (with_self (set__device_id (JStr "dev-1")) w')) <> JNull
  /\ _get_device_id E w = (Ok (JStr "dev-1"), with_self (set__device_id (JStr "dev-1")) w')
  /\ _get_device_id (env_devices two_devices_later)
        (with_self (set__device_id (JStr "dev-1")) w')
      = (Ok (JStr "dev-1"), with_self (set__device_id (JStr "dev-1")) w')
  /\ fst (_get_device_id E lost)
      = Raise (IquaSoftenerException (DeviceNotFound "SN-7")).
Proof.
  intros E w w' lost.
  assert (Hshape : Forall (fun d => exists v, device_serial_of d = Ok v) two_devices).
  { repeat constructor; eexists; reflexivity. }
  do 5 (split; [reflexivity |]). split; [discriminate |].
  destruct (device_id_resolution E w w' two_devices) as (Hone & _ & Hcached);
    try reflexivity; try exact Hshape.
  destruct (Hone (sample_device "SN-1" "dev-1") (JStr "dev-1")) as [Hfound _];
    try reflexivity.
  split; [exact Hfound |].
  split.
  - apply (Hcached (env_devices two_devices_later)
             (with_self (set__device_id (JStr "dev-1")) w')).
    discriminate.
  - pose proof (device_id_resolution E lost (snd (_get_devices E lost))
                  two_devices eq_refl eq_refl Hshape) as (_ & Hnone & _).
    rewrite Hnone; reflexivity.
Defined.

(** ** The valve command *)

(** Once [_ensure_authenticated] has returned, [_request] logs the first
    attempt and no further call, whatever the transport answers. *)
Lemma request_logs_one_call (E : env) (w w1 w2 : world) (sess : session)
    (method path : string) (payload : option json) :
  _ensure_authenticated E w = (Ok tt, w1) ->
  _ensure_session w1 = (Ok tt, w2) ->
  _session (self w2) = Some sess ->
  net_log (snd (_request E method path payload w))
    = pipeline_call w2 sess method path payload :: net_log w2.
Proof.
  intros Hauth Hsess Hs.
  destruct (transport E (net_log w2) (pipeline_call w2 sess method path payload))
    as [| r] eqn:Hnet.
  - unfold _request, bind at 1; rewrite Hauth.
    unfold bind at 1; rewrite Hsess.
    unfold bind at 1, get at 1.
    unfold bind at 1, session_request at 1, bind at 1, get at 1.
    rewrite Hs. unfold pipeline_call in Hnet. rewrite Hnet. reflexivity.
  - destruct ((status_code r =? 401) && py_truthy (_refresh_token (self w2)))
      eqn:Hrecover.
    + first_attempt Hauth Hsess Hs Hnet. rewrite Hrecover. reflexivity.
    + now rewrite (request_no_recovery E w w1 w2 sess method path payload r
                     Hauth Hsess Hs Hnet Hrecover).
Qed.

Lemma valve_url (E : env) (base : string) (device_id : json) :
  resolve_url base (valve_path E device_id)
    = rstrip_slash base ++ "/devices/" ++ py_str E device_id ++ "/command".
Proof. reflexivity. Qed.

Lemma valve_sends (E : env) (w w1 w2 w3 : world) (sess : session)
    (device_id : json) (state : Z) :
  state = 0 \/ state = 1 ->
  _get_device_id E w = (Ok device_id, w1) ->
  _ensure_authenticated E w1 = (Ok tt, w2) ->
  _ensure_session w2 = (Ok tt, w3) ->
  _session (self w3) = Some sess ->
  net_log (snd (set_water_shutoff_valve E state w))
    = mkRequest "PUT"
        (rstrip_slash (_api_base_url (self w3))
           ++ "/devices/" ++ py_str E device_id ++ "/command")
        20
        (Some (valve_payload (if state =? 1 then "close" else "open")))
        (authorization sess)
      :: net_log w3.
Proof.
  intros Hstate Hget Hauth Hsess Hs.
  pose proof (request_logs_one_call E w1 w2 w3 sess "PUT"
                (valve_path E device_id)
                (Some (valve_payload (if state =? 1 then "close" else "open")))
                Hauth Hsess Hs) as Hlog.
  unfold pipeline_call in Hlog. rewrite valve_url in Hlog.
  unfold set_water_shutoff_valve.
  replace (negb ((state =? 0) || (state =? 1))) with false
    by (destruct Hstate; subst; reflexivity).
  unfold bind at 1. rewrite Hget. cbv zeta. unfold bind at 1.
  fold (valve_path E device_id).
  fold (valve_payload (if state =? 1 then "close" else "open")).
  destruct (_request E "PUT" _ _ w1) as [[r | e] w4]; simpl in *;
    [| exact Hlog].
  destruct (negb (status_code r =? 200)); simpl; [exact Hlog |].
  unfold response_json. destruct (body r); exact Hlog.
Qed.

(** C9: a state other than 0 and 1 makes [set_water_shutoff_valve] raise
    [ValueError] in the world it was called in: tokens, device-id cache and
    the log of HTTP calls are untouched.  For state 1, once the device id is
    resolved and [_ensure_authenticated] has returned, the one call it logs
    is a PUT to the command URL of the device with the payload function
    "water_shutoff_valve", action "close"; for state 0 the action is
    "open". *)
Theorem valve_command (E : env) (w : world) :
  (forall state : Z,
     state <> 0 -> state <> 1 ->
     set_water_shutoff_valve E state w
       = (Raise (ValueError
                   "Invalid state for water shut off valve (should be 0 or 1)."),
          w))
  /\ (forall (w1 w2 w3 : world) (sess : session) (device_id : json),
        _get_device_id E w = (Ok device_id, w1) ->
        _ensure_authenticated E w1 = (Ok tt, w2) ->
        _ensure_session w2 = (Ok tt, w3) ->
        _session (self w3) = Some sess ->
        let sent (action : string) : request :=
          mkRequest "PUT"
            (rstrip_slash (_api_base_url (self w3))
               ++ "/devices/" ++ py_str E device_id ++ "/command")
            20
            (Some (JObj [("function", JStr "water_shutoff_valve");
                         ("action", JStr action)]))
            (authorization sess) in
        net_log (snd (set_water_shutoff_valve E 1 w))
          = sent "close" :: net_log w3
        /\ net_log (snd (set_water_shutoff_valve E 0 w))
           = sent "open" :: net_log w3).
Proof.
  split.
  - intros state H0 H1. unfold set_water_shutoff_valve.
    apply Z.eqb_neq in H0, H1. now rewrite H0, H1.
  - intros w1 w2 w3 sess device_id Hget Hauth Hsess Hs sent. split.
    + apply (valve_sends E w w1 w2 w3 sess device_id 1); auto.
    + apply (valve_sends E w w1 w2 w3 sess device_id 0); auto.
Qed.

Lemma valve_command_witness :
  let w := world_of resolved_client in
  let w1 := with_clock_reads S w in
  let sent (action : string) : request :=
    mkRequest "PUT" "https://api.myiquaapp.com/v1/devices/dev-1/command" 20
      (Some (JObj [("function", JStr "water_shutoff_valve");
                   ("action", JStr action)]))
      (Some "Bearer a1") in
  2 <> 0 /\ 2 <> 1
  /\ _get_device_id env_204 w = (Ok (JStr "dev-1"), w)
  /\ _ensure_authenticated env_204 w = (Ok tt, w1)
  /\ _ensure_session w1 = (Ok tt, w1)
  /\ _session (self w1) = Some (mkSession (Some "Bearer a1"))
  /\ set_water_shutoff_valve env_204 2 w
     = (Raise (ValueError
                 "Invalid state for water shut off valve (should be 0 or 1)."),
        w)
  /\ net_log (snd (set_water_shutoff_valve env_204 1 w)) = [sent "close"]
  /\ net_log (snd (set_water_shutoff_valve env_204 0 w)) = [sent "open"].
Proof.
  intros w w1 sent.
  split; [discriminate |]. split; [discriminate |].
  do 4 (split; [reflexivity |]).
  pose proof (valve_command env_204 w) as [Hinvalid Hsent].
  split; [apply (Hinvalid 2); discriminate |].
  exact (Hsent w w1 w1 (mkSession (Some "Bearer a1")) (JStr "dev-1")
           eq_refl eq_refl eq_refl eq_refl).
Defined.

(** * Further properties of the code *)

(** ** Login *)

(** What [_set_tokens] leaves behind, attribute by attribute. *)
Lemma set_tokens_result (E : env) (w : world) (tok rt : json) :
  exists w' : world,
    _set_tokens E tok rt w = (Ok tt, w')
    /\ _access_token (self w') = tok
    /\ _refresh_token (self w') = rt
    /\ _session (self w')
        = Some (mkSession (bearer_after E tok (authorization_of (_session (self w)))))
    /\ _user_id (self w') = _user_id (self w)
    /\ _device_id (self w') = _device_id (self w)
    /\ config_of (self w') = config_of (self w)
    /\ fs w' = fs w
    /\ net_log w' = net_log w
    /\ clock_reads w' = clock_reads w.
Proof.
  unfold _set_tokens, derive_expiry, _ensure_session,
    headers_update_authorization, bearer_after.
  destruct w as [[u p sn base sess acc ref uid exp0 dev] files log reads].
  run.
  destruct (jwt E) as [dec |]; [destruct (dec tok) as [decoded |] |]; simpl;
    try destruct (py_truthy (dict_get_or decoded "exp" JNull)); simpl;
    try destruct (py_int E (dict_get_or decoded "exp" JNull)); simpl;
    destruct sess as [[auth] |]; simpl;
    destruct (py_truthy tok); simpl;
    eexists; repeat split; reflexivity.
Qed.

(** The common prefix of [_login]: session, URL and payload, the POST. *)
Ltac login_post Hsess Hs Hnet :=
  unfold _login, bind at 1; rewrite Hsess;
  unfold bind at 1, get at 1; unfold bind at 1, get at 1;
  unfold bind at 1, get at 1; cbv zeta;
  unfold bind at 1, try_except at 1, session_request at 1, bind at 1, get at 1;
  rewrite Hs; unfold login_call in Hnet; rewrite Hnet.

(** X1: a login that fails leaves one POST to [<base>/auth/login] in the
    log (timeout 15, the credentials as JSON body) and no attribute but the
    session changed: a transport failure, a 401 and any other status than
    200 each raise [IquaSoftenerException] with their own message. *)
Theorem login_failures (E : env) (w w1 : world) (sess : session) :
  _ensure_session w = (Ok tt, w1) ->
  _session (self w1) = Some sess ->
  let posted := with_net_log (cons (login_call w1 sess)) w1 in
  (transport E (net_log w1) (login_call w1 sess) = NetRaise ->
   _login E w = (Raise (IquaSoftenerException LoginRequestException), posted))
  /\ (forall r : response,
        transport E (net_log w1) (login_call w1 sess) = NetResponse r ->
        status_code r = 401 ->
        _login E w
          = (Raise (IquaSoftenerException (AuthenticationError (text r))), posted))
  /\ (forall r : response,
        transport E (net_log w1) (login_call w1 sess) = NetResponse r ->
        status_code r <> 401 ->
        status_code r <> 200 ->
        _login E w
          = (Raise (IquaSoftenerException (LoginFailed (status_code r) (text r))),
             posted)).
Proof.
  intros Hsess Hs posted. split; [| split].
  - intros Hnet. login_post Hsess Hs Hnet. reflexivity.
  - intros r Hnet H401. login_post Hsess Hs Hnet.
    cbn [is_RequestException]. unfold bind at 1. rewrite H401. reflexivity.
  - intros r Hnet Hn401 Hn200. login_post Hsess Hs Hnet.
    unfold bind at 1. apply Z.eqb_neq in Hn401, Hn200.
    rewrite Hn401, Hn200. reflexivity.
Qed.

Lemma login_failures_witness :
  let w := world_of fresh_client in
  let w1 := with_self (set__session (Some (mkSession None))) w in
  let posted := with_net_log (cons (login_call w1 (mkSession None))) w1 in
  _ensure_session w = (Ok tt, w1)
  /\ _session (self w1) = Some (mkSession None)
  /\ transport env_offline (net_log w1) (login_call w1 (mkSession None)) = NetRaise
  /\ transport env_401 (net_log w1) (login_call w1 (mkSession None))
      = NetResponse (mkResponse 401 "" None)
  /\ transport env_500 (net_log w1) (login_call w1 (mkSession None))
      = NetResponse (mkResponse 500 "down" None)
  /\ 500 <> 401 /\ 500 <> 200
  /\ _login env_offline w
      = (Raise (IquaSoftenerException LoginRequestException), posted)
  /\ _login env_401 w
      = (Raise (IquaSoftenerException (AuthenticationError "")), posted)
  /\ _login env_500 w
      = (Raise (IquaSoftenerException (LoginFailed 500 "down")), posted).
Proof.
  intros w w1 posted.
  do 5 (split; [reflexivity |]).
  split; [discriminate |]. split; [discriminate |].
  pose proof (login_failures env_offline w w1 (mkSession None) eq_refl eq_refl)
    as (Hoff & _ & _).
  pose proof (login_failures env_401 w w1 (mkSession None) eq_refl eq_refl)
    as (_ & H401 & _).
  pose proof (login_failures env_500 w w1 (mkSession None) eq_refl eq_refl)
    as (_ & _ & H500).
  split; [exact (Hoff eq_refl) |].
  split; [exact (H401 (mkResponse 401 "" None) eq_refl eq_refl) |].
  apply (H500 (mkResponse 500 "down" None) eq_refl); discriminate.
Defined.

(** X2: a login answered 200 with a JSON object stores the values of the
    keys access_token, refresh_token and user_id, [None] for a missing key,
    and returns the document; it logs the one POST.  The session carries
    "Bearer <access token>" afterwards when the stored token is truthy, and
    the header it had before otherwise. *)
Theorem login_success (E : env) (w w1 : world) (sess : session)
    (r : response) (data : pydict) :
  _ensure_session w = (Ok tt, w1) ->
  _session (self w1) = Some sess ->
  transport E (net_log w1) (login_call w1 sess) = NetResponse r ->
  status_code r = 200 ->
  body r = Some (JObj data) ->
  exists w' : world,
    _login E w = (Ok (JObj data), w')
    /\ _access_token (self w') = default JNull (dict_get data "access_token")
    /\ _refresh_token (self w') = default JNull (dict_get data "refresh_token")
    /\ _user_id (self w') = default JNull (dict_get data "user_id")
    /\ _session (self w')
        = Some (mkSession
                  (bearer_after E (default JNull (dict_get data "access_token"))
                     (authorization sess)))
    /\ _device_id (self w') = _device_id (self w1)
    /\ net_log w' = login_call w1 sess :: net_log w1.
Proof.
  intros Hsess Hs Hnet H200 Hbody.
  login_post Hsess Hs Hnet.
  unfold bind at 1. rewrite H200. cbn [Z.eqb Pos.eqb negb].
  unfold response_json. rewrite Hbody.
  unfold bind at 1, ret at 1.
  unfold bind at 1, lift at 1, py_get at 1.
  unfold bind at 1, lift at 1, py_get at 1.
  unfold bind at 1.
  destruct (set_tokens_result E
              (with_net_log (cons (login_call w1 sess)) w1)
              (dict_get_or data "access_token" JNull)
              (dict_get_or data "refresh_token" JNull))
    as (w2 & Hrun & Hacc & Href & Hsession & _ & Hdev & _ & _ & Hlog & _).
  unfold login_call in Hrun. rewrite Hrun.
  run. eexists. split; [reflexivity |]. simpl.
  rewrite Hacc, Href, Hsession, Hdev, Hlog. simpl. rewrite Hs.
  unfold dict_get_or, login_call. repeat split.
Qed.

Lemma login_success_witness :
  let w := world_of fresh_client in
  let w1 := with_self (set__session (Some (mkSession None))) w in
  _ensure_session w = (Ok tt, w1)
  /\ _session (self w1) = Some (mkSession None)
  /\ transport env_tokens (net_log w1) (login_call w1 (mkSession None))
     = NetResponse token_response
  /\ status_code token_response = 200
  /\ exists w' : world,
       fst (_login env_tokens w)
         = Ok (JObj [("access_token", JStr "t3600"); ("user_id", JStr "u7")])
       /\ snd (_login env_tokens w) = w'
       /\ _access_token (self w') = JStr "t3600"
       /\ _refresh_token (self w') = JNull
       /\ _user_id (self w') = JStr "u7"
       /\ _session (self w') = Some (mkSession (Some "Bearer t3600")).
Proof.
  intros w w1.
  do 4 (split; [reflexivity |]).
  destruct (login_success env_tokens w w1 (mkSession None) token_response
              [("access_token", JStr "t3600"); ("user_id", JStr "u7")]
              eq_refl eq_refl eq_refl eq_refl eq_refl)
    as (w' & Hrun & Hacc & Href & Huid & Hsession & _ & _).
  exists w'. rewrite Hrun. simpl.
  repeat split; assumption.
Defined.

(** ** Authentication before a request *)

(** X3: while the access token is held and not yet expired (its derived
    expiry unknown, or later than the clock), [_ensure_authenticated]
    returns without any HTTP call and leaves the instance and the file
    system as they are. *)
Theorem ensure_authenticated_valid_token (E : env) (w : world) :
  py_truthy (_access_token (self w)) = true ->
  (_access_expires_at (self w) = JNull
   \/ exists d : Z,
        _access_expires_at (self w) = JNum d
        /\ (clock E (clock_reads w) < inject_Z d)%Q) ->
  fst (_ensure_authenticated E w) = Ok tt
  /\ self (snd (_ensure_authenticated E w)) = self w
  /\ net_log (snd (_ensure_authenticated E w)) = net_log w
  /\ fs (snd (_ensure_authenticated E w)) = fs w.
Proof.
  intros Hheld [Hnull | (d & Hd & Hearly)]; unfold _ensure_authenticated, bind.
  - rewrite (is_token_expired_unknown E w Hheld Hnull). repeat split.
  - rewrite (is_token_expired_known E w d Hheld Hd).
    replace (Qle_bool (inject_Z d) (clock E (clock_reads w))) with false.
    + repeat split.
    + symmetry. apply not_true_is_false. intros Hle.
      apply Qle_bool_iff in Hle. apply (Qlt_not_le _ _ Hearly Hle).
Qed.

Lemma ensure_authenticated_valid_token_witness :
  let w := world_of logged_in_client in
  py_truthy (_access_token (self w)) = true
  /\ _access_expires_at (self w) = JNum 1000
  /\ (clock env_401 (clock_reads w) < inject_Z 1000)%Q
  /\ fst (_ensure_authenticated env_401 w) = Ok tt
  /\ net_log (snd (_ensure_authenticated env_401 w)) = [].
Proof.
  intros w.
  assert (Hearly : (clock env_401 (clock_reads w) < inject_Z 1000)%Q)
    by reflexivity.
  split; [reflexivity |]. split; [reflexivity |]. split; [exact Hearly |].
  destruct (ensure_authenticated_valid_token env_401 w eq_refl) as (Hok & _ & Hlog & _).
  - right. exists 1000. split; [reflexivity | exact Hearly].
  - split; [exact Hok | exact Hlog].
Defined.

(** X4: with the access token absent or expired and no refresh token held,
    [_ensure_authenticated] logs in.  A login that raises
    [IquaSoftenerException] is followed by a second login from the state the
    first one left, and the outcome of the second is the outcome of the
    call; any other exception of the first login ends the call at once. *)
Theorem ensure_authenticated_login_retry (E : env) (w w1 : world) :
  _is_token_expired E w = (Ok true, w1) ->
  py_truthy (_refresh_token (self w1)) = false ->
  (forall (data : json) (w2 : world),
     _login E w1 = (Ok data, w2) ->
     _ensure_authenticated E w = (Ok tt, w2))
  /\ (forall (e : iqua_error) (w2 : world),
        _login E w1 = (Raise (IquaSoftenerException e), w2) ->
        _ensure_authenticated E w = (_login E ;; ret tt) w2)
  /\ (forall (x : exn) (w2 : world),
        _login E w1 = (Raise x, w2) ->
        is_IquaSoftenerException x = false ->
        _ensure_authenticated E w = (Raise x, w2)).
Proof.
  intros Hexpired Hnone.
  assert (Hbody : _ensure_authenticated E w
            = try_except (_login E ;; ret tt) is_IquaSoftenerException
                (_login E ;; ret tt) w1).
  { unfold _ensure_authenticated, bind at 1. rewrite Hexpired.
    unfold try_except, bind at 1, get at 1. now rewrite Hnone. }
  rewrite Hbody. unfold try_except.
  split; [| split].
  - intros data w2 Hlogin. unfold bind at 1. now rewrite Hlogin.
  - intros e w2 Hlogin. unfold bind at 1. now rewrite Hlogin.
  - intros x w2 Hlogin Hother. unfold bind at 1. rewrite Hlogin.
    now rewrite Hother.
Qed.

Lemma ensure_authenticated_login_retry_witness :
  let w := world_of fresh_client in
  let w1 := with_self (set__session (Some (mkSession None))) w in
  let posted := with_net_log (cons (login_call w1 (mkSession None))) w1 in
  _is_token_expired env_500 w = (Ok true, w)
  /\ py_truthy (_refresh_token (self w)) = false
  /\ _login env_500 w
     = (Raise (IquaSoftenerException (LoginFailed 500 "down")), posted)
  /\ _login env_tokens w = (Ok (JObj [("access_token", JStr "t3600");
                                      ("user_id", JStr "u7")]),
                            snd (_login env_tokens w))
  /\ _login env_not_json w = (Raise RequestsJSONDecodeError, posted)
  /\ is_IquaSoftenerException RequestsJSONDecodeError = false
  /\ fst (_ensure_authenticated env_500 w)
     = Raise (IquaSoftenerException (LoginFailed 500 "down"))
  /\ length (net_log (snd (_ensure_authenticated env_500 w))) = 2%nat
  /\ _ensure_authenticated env_tokens w = (Ok tt, snd (_login env_tokens w))
  /\ _ensure_authenticated env_not_json w = (Raise RequestsJSONDecodeError, posted).
Proof.
  intros w w1 posted.
  do 6 (split; [reflexivity |]).
  pose proof (ensure_authenticated_login_retry env_500 w w eq_refl eq_refl)
    as (_ & Hretry & _).
  pose proof (ensure_authenticated_login_retry env_tokens w w eq_refl eq_refl)
    as (Hfirst & _ & _).
  pose proof (ensure_authenticated_login_retry env_not_json w w eq_refl eq_refl)
    as (_ & _ & Hother).
  rewrite (Hretry (LoginFailed 500 "down") posted eq_refl).
  split; [reflexivity |]. split; [reflexivity |].
  split; [exact (Hfirst _ _ eq_refl) |].
  exact (Hother RequestsJSONDecodeError posted eq_refl eq_refl).
Defined.

(** ** The refresh function *)

Lemma ensure_session_keeps_tokens (w w1 : world) :
  _ensure_session w = (Ok tt, w1) ->
  _refresh_token (self w1) = _refresh_token (self w)
  /\ _user_id (self w1) = _user_id (self w)
  /\ _access_token (self w1) = _access_token (self w)
  /\ _access_expires_at (self w1) = _access_expires_at (self w)
  /\ _device_id (self w1) = _device_id (self w)
  /\ net_log w1 = net_log w.
Proof.
  unfold _ensure_session. run.
  destruct (_session (self w)); intros [= <-]; repeat split.
Qed.

(** The common prefix of the function [_refresh_token] once the guard is
    passed: session, URL and payload, the POST. *)
Ltac refresh_post Hheld Hsess Hs Hsame Hnet :=
  unfold IquaSoftener__refresh_token, bind at 1, get at 1; rewrite Hheld;
  cbn [negb]; unfold bind at 1; rewrite Hsess;
  unfold bind at 1, get at 1; cbv zeta;
  unfold bind at 1, try_except at 1, session_request at 1, bind at 1, get at 1;
  rewrite Hs; unfold refresh_call in Hnet; rewrite Hsame in Hnet; rewrite Hnet.

(** X5: the function [_refresh_token], called with a refresh token held,
    posts it to [<base>/auth/refresh] with a timeout of 15.  A transport
    failure or any status other than 200 raises [IquaSoftenerException] and
    changes no token.  A 200 with a JSON object stores the access token and
    the refresh token of the document, so a document without a refresh
    token leaves the client without one, and it leaves the user id alone. *)
Theorem refresh_outcome (E : env) (w w1 : world) (sess : session) :
  py_truthy (_refresh_token (self w)) = true ->
  _ensure_session w = (Ok tt, w1) ->
  _session (self w1) = Some sess ->
  let posted := with_net_log (cons (refresh_call w1 sess)) w1 in
  (transport E (net_log w1) (refresh_call w1 sess) = NetRaise ->
   IquaSoftener__refresh_token E w
     = (Raise (IquaSoftenerException RefreshRequestException), posted))
  /\ (forall r : response,
        transport E (net_log w1) (refresh_call w1 sess) = NetResponse r ->
        status_code r <> 200 ->
        IquaSoftener__refresh_token E w
          = (Raise (IquaSoftenerException
                      (RefreshFailed (status_code r) (text r))), posted))
  /\ (forall (r : response) (data : pydict),
        transport E (net_log w1) (refresh_call w1 sess) = NetResponse r ->
        status_code r = 200 ->
        body r = Some (JObj data) ->
        exists w' : world,
          IquaSoftener__refresh_token E w = (Ok (JObj data), w')
          /\ _access_token (self w') = default JNull (dict_get data "access_token")
          /\ _refresh_token (self w') = default JNull (dict_get data "refresh_token")
          /\ _user_id (self w') = _user_id (self w)
          /\ net_log w' = refresh_call w1 sess :: net_log w1).
Proof.
  intros Hheld Hsess Hs posted.
  destruct (ensure_session_keeps_tokens w w1 Hsess) as (Hsame & Huid & _).
  assert (Hposted : posted
            = with_net_log
                (cons (mkRequest "POST" (_api_base_url (self w1) ++ "/auth/refresh")
                         15 (Some (JObj [("refresh_token", _refresh_token (self w))]))
                         (authorization sess))) w1).
  { unfold posted, refresh_call. now rewrite Hsame. }
  split; [| split].
  - intros Hnet. refresh_post Hheld Hsess Hs Hsame Hnet. now rewrite Hposted.
  - intros r Hnet Hn200. refresh_post Hheld Hsess Hs Hsame Hnet.
    unfold bind at 1. apply Z.eqb_neq in Hn200. rewrite Hn200.
    now rewrite Hposted.
  - intros r data Hnet H200 Hbody. refresh_post Hheld Hsess Hs Hsame Hnet.
    unfold bind at 1. rewrite H200. cbn [Z.eqb Pos.eqb negb].
    unfold response_json. rewrite Hbody.
    unfold bind at 1, ret at 1.
    unfold bind at 1, lift at 1, py_get at 1.
    unfold bind at 1, lift at 1, py_get at 1.
    match goal with
    | |- context [_set_tokens E ?tok ?rt ?w0] =>
        destruct (set_tokens_result E w0 tok rt)
          as (w2 & Hrun & Hacc & Href & _ & Huid2 & _ & _ & _ & Hlog & _);
        rewrite Hrun
    end.
    run. eexists. split; [reflexivity |].
    rewrite Hacc, Href, Huid2, Hlog. simpl. rewrite Huid.
    unfold dict_get_or, refresh_call. rewrite Hsame. repeat split.
Qed.

Lemma refresh_outcome_witness :
  let w := world_of logged_in_client in
  let sess := mkSession (Some "Bearer a1") in
  py_truthy (_refresh_token (self w)) = true
  /\ _ensure_session w = (Ok tt, w)
  /\ _session (self w) = Some sess
  /\ transport env_offline (net_log w) (refresh_call w sess) = NetRaise
  /\ transport env_500 (net_log w) (refresh_call w sess)
     = NetResponse (mkResponse 500 "down" None)
  /\ 500 <> 200
  /\ transport env_tokens (net_log w) (refresh_call w sess)
     = NetResponse token_response
  /\ fst (IquaSoftener__refresh_token env_offline w)
     = Raise (IquaSoftenerException RefreshRequestException)
  /\ fst (IquaSoftener__refresh_token env_500 w)
     = Raise (IquaSoftenerException (RefreshFailed 500 "down"))
  /\ _access_token (self (snd (IquaSoftener__refresh_token env_tokens w)))
     = JStr "t3600"
  /\ _refresh_token (self (snd (IquaSoftener__refresh_token env_tokens w)))
     = JNull
  /\ _user_id (self (snd (IquaSoftener__refresh_token env_tokens w)))
     = JStr "u1".
Proof.
  intros w sess.
  do 5 (split; [reflexivity |]). split; [discriminate |].
  split; [reflexivity |].
  pose proof (refresh_outcome env_offline w w sess eq_refl eq_refl eq_refl)
    as (Hoff & _ & _).
  pose proof (refresh_outcome env_500 w w sess eq_refl eq_refl eq_refl)
    as (_ & H500 & _).
  pose proof (refresh_outcome env_tokens w w sess eq_refl eq_refl eq_refl)
    as (_ & _ & H200).
  rewrite (Hoff eq_refl).
  rewrite (H500 (mkResponse 500 "down" None) eq_refl); [| discriminate].
  destruct (H200 token_response _ eq_refl eq_refl eq_refl)
    as (w' & Hrun & Hacc & Href & Huid & _).
  rewrite Hrun. simpl.
  repeat split; assumption.
Defined.

(** ** URLs *)

Lemma lstrip_slash_no_leading (s : string) :
  starts_with_slash (lstrip_slash s) = false.
Proof.
  induction s as [| c s IH]; [reflexivity |].
  simpl. destruct (Ascii.eqb c slash) eqn:Hc; [exact IH |].
  simpl. exact Hc.
Qed.

Lemma rstrip_slash_no_trailing (s : string) :
  ends_with_slash (rstrip_slash s) = false.
Proof.
  induction s as [| c s IH]; [reflexivity |].
  simpl. destruct (rstrip_slash s) as [| c' r] eqn:Hr.
  - destruct (Ascii.eqb c slash) eqn:Hc; [reflexivity |]. simpl. exact Hc.
  - exact IH.
Qed.

Lemma rstrip_slash_trailing (s : string) :
  rstrip_slash (s ++ "/") = rstrip_slash s.
Proof.
  induction s as [| c s IH]; [reflexivity |].
  simpl. now rewrite IH.
Qed.

(** X6: for a path that does not start with "http", the URL of a request
    is the base without its trailing slashes, one slash, and the path
    without its leading slashes; one more slash at the end of the base or at
    the start of the path does not change it. *)
Theorem resolve_url_one_slash (base path : string) :
  String.prefix "http" path = false ->
  resolve_url base path = rstrip_slash base ++ "/" ++ lstrip_slash path
  /\ ends_with_slash (rstrip_slash base) = false
  /\ starts_with_slash (lstrip_slash path) = false
  /\ resolve_url (base ++ "/") path = resolve_url base path
  /\ resolve_url base ("/" ++ path) = resolve_url base path.
Proof.
  intros Hrel. unfold resolve_url. rewrite Hrel.
  split; [reflexivity |].
  split; [apply rstrip_slash_no_trailing |].
  split; [apply lstrip_slash_no_leading |].
  split; [now rewrite rstrip_slash_trailing | reflexivity].
Qed.

Lemma resolve_url_one_slash_witness :
  String.prefix "http" "//devices" = false
  /\ resolve_url "https://api.myiquaapp.com/v1//" "//devices"
     = "https://api.myiquaapp.com/v1" ++ "/" ++ "devices"
  /\ resolve_url ("https://api.myiquaapp.com/v1//" ++ "/") "//devices"
     = resolve_url "https://api.myiquaapp.com/v1//" "//devices".
Proof.
  split; [reflexivity |].
  destruct (resolve_url_one_slash "https://api.myiquaapp.com/v1//" "//devices"
              eq_refl) as (Hjoin & _ & _ & Hbase & _).
  split; [exact Hjoin | exact Hbase].
Defined.

(** ** The token file: bad files, and what a restored token is worth *)

Lemma load_tokens_object (w : world) (path : string) (blob : pydict) :
  fs w !! path = Some (FFile (FJson (JObj blob))) ->
  load_tokens path w
    = (Ok tt,
       with_self (set__access_expires_at (dict_get_or blob "_access_expires_at" JNull))
         (with_self (set__user_id (dict_get_or blob "user_id" JNull))
            (with_self (set__refresh_token (dict_get_or blob "refresh_token" JNull))
               (with_self (set__access_token (dict_get_or blob "access_token" JNull))
                  w)))).
Proof.
  intros Hblob. unfold load_tokens, read_json. run. now rewrite Hblob.
Qed.

(** X7: [load_tokens] restores all four token attributes or none: whenever
    it raises (a file that cannot be opened, a file that is not JSON, a JSON
    document that is not an object) the world is the one it was called in;
    and in no case does it touch the session, the device-id cache, the
    configuration, the file system or the log of HTTP calls. *)
Theorem load_tokens_all_or_nothing (w : world) (path : string) :
  (forall e : exn, fst (load_tokens path w) = Raise e ->
     snd (load_tokens path w) = w)
  /\ (forall (entry : fs_entry),
        fs w !! path = Some entry ->
        (forall blob : pydict, entry <> FFile (FJson (JObj blob))) ->
        exists e : exn, load_tokens path w = (Raise e, w))
  /\ _session (self (snd (load_tokens path w))) = _session (self w)
  /\ _device_id (self (snd (load_tokens path w))) = _device_id (self w)
  /\ config_of (self (snd (load_tokens path w))) = config_of (self w)
  /\ fs (snd (load_tokens path w)) = fs w
  /\ net_log (snd (load_tokens path w)) = net_log w.
Proof.
  destruct (fs w !! path) as [[[doc | raw | cut] |] |] eqn:Hentry.
  - destruct doc as [| b | n | s | items | blob].
    6: { rewrite (load_tokens_object w path blob Hentry). simpl.
         split; [discriminate |].
         split; [| repeat split].
         intros entry [= <-] Hnot. now destruct (Hnot blob). }
    all: assert (Hrun : load_tokens path w = (Raise (AttributeError "get"), w))
           by (unfold load_tokens, read_json; run; now rewrite Hentry).
    all: rewrite Hrun; simpl; split; [reflexivity |];
         split; [intros; eexists; reflexivity | repeat split].
  - assert (Hrun : load_tokens path w = (Raise JSONDecodeError, w))
      by (unfold load_tokens, read_json; run; now rewrite Hentry).
    rewrite Hrun; simpl. split; [reflexivity |].
    split; [intros; eexists; reflexivity | repeat split].
  - assert (Hrun : load_tokens path w = (Raise JSONDecodeError, w))
      by (unfold load_tokens, read_json; run; now rewrite Hentry).
    rewrite Hrun; simpl. split; [reflexivity |].
    split; [intros; eexists; reflexivity | repeat split].
  - assert (Hrun : load_tokens path w = (Raise OSError, w))
      by (unfold load_tokens, read_json; run; now rewrite Hentry).
    rewrite Hrun; simpl. split; [reflexivity |].
    split; [intros; eexists; reflexivity | repeat split].
  - assert (Hrun : load_tokens path w = (Ok tt, w))
      by (unfold load_tokens, read_json; run; now rewrite Hentry).
    rewrite Hrun; simpl. split; [discriminate |].
    split; [discriminate | repeat split].
Qed.

Lemma load_tokens_all_or_nothing_witness :
  fs restart_world !! "list.json" = Some (FFile (FJson (JArr [JStr "a1"])))
  /\ (forall blob : pydict,
        FFile (FJson (JArr [JStr "a1"])) <> FFile (FJson (JObj blob)))
  /\ fst (load_tokens "notes.txt" restart_world) = Raise JSONDecodeError
  /\ snd (load_tokens "notes.txt" restart_world) = restart_world
  /\ exists e : exn, load_tokens "list.json" restart_world = (Raise e, restart_world).
Proof.
  split; [reflexivity |]. split; [discriminate |]. split; [reflexivity |].
  pose proof (load_tokens_all_or_nothing restart_world "notes.txt") as (Hraise & _).
  pose proof (load_tokens_all_or_nothing restart_world "list.json") as (_ & Hbad & _).
  split; [exact (Hraise JSONDecodeError eq_refl) |].
  apply (Hbad (FFile (FJson (JArr [JStr "a1"]))) eq_refl). discriminate.
Defined.

Lemma ensure_authenticated_passes (E : env) (w : world) :
  py_truthy (_access_token (self w)) = true ->
  (_access_expires_at (self w) = JNull
   \/ exists d : Z,
        _access_expires_at (self w) = JNum d
        /\ (clock E (clock_reads w) < inject_Z d)%Q) ->
  exists w1 : world,
    _ensure_authenticated E w = (Ok tt, w1)
    /\ self w1 = self w /\ net_log w1 = net_log w.
Proof.
  intros Hheld [Hnull | (d & Hd & Hearly)]; unfold _ensure_authenticated, bind.
  - rewrite (is_token_expired_unknown E w Hheld Hnull). eexists. repeat split.
  - rewrite (is_token_expired_known E w d Hheld Hd).
    replace (Qle_bool (inject_Z d) (clock E (clock_reads w))) with false.
    + eexists. repeat split.
    + symmetry. apply not_true_is_false. intros Hle.
      apply Qle_bool_iff in Hle. apply (Qlt_not_le _ _ Hearly Hle).
Qed.

(** X8: [load_tokens] does not create the session or set its header.  A
    client without a session that restores a token still valid sends its
    next request without an [Authorization] header: the one call
    [_request] logs carries none. *)
Theorem restored_token_sent_without_header (E : env) (w : world)
    (path : string) (blob : pydict) (tok : json)
    (method url : string) (payload : option json) :
  _session (self w) = None ->
  fs w !! path = Some (FFile (FJson (JObj blob))) ->
  dict_get blob "access_token" = Some tok ->
  py_truthy tok = true ->
  (dict_get_or blob "_access_expires_at" JNull = JNull
   \/ exists d : Z,
        dict_get_or blob "_access_expires_at" JNull = JNum d
        /\ (clock E (clock_reads w) < inject_Z d)%Q) ->
  exists (w1 : world) (call : request),
    load_tokens path w = (Ok tt, w1)
    /\ _access_token (self w1) = tok
    /\ net_log (snd (_request E method url payload w1)) = call :: net_log w
    /\ req_method call = method
    /\ req_json call = payload
    /\ req_authorization call = None.
Proof.
  intros Hnosession Hblob Htok Hheld Hvalid.
  pose proof (load_tokens_object w path blob Hblob) as Hload.
  set (w1 := snd (load_tokens path w)).
  assert (Hw1 : load_tokens path w = (Ok tt, w1))
    by (unfold w1; now rewrite Hload).
  assert (Hacc : _access_token (self w1) = tok)
    by (unfold w1; rewrite Hload; simpl; unfold dict_get_or; now rewrite Htok).
  assert (Hexp : _access_expires_at (self w1)
                 = dict_get_or blob "_access_expires_at" JNull)
    by (unfold w1; now rewrite Hload).
  assert (Hsess1 : _session (self w1) = None)
    by (unfold w1; now rewrite Hload).
  assert (Hlog1 : net_log w1 = net_log w) by (unfold w1; now rewrite Hload).
  assert (Hreads1 : clock_reads w1 = clock_reads w)
    by (unfold w1; now rewrite Hload).
  destruct (ensure_authenticated_passes E w1) as (w2 & Hauth & Hself & Hlog2).
  { now rewrite Hacc. }
  { rewrite Hexp, Hreads1. exact Hvalid. }
  assert (Hsess2 : _ensure_session w2
            = (Ok tt, with_self (set__session (Some (mkSession None))) w2)).
  { unfold _ensure_session. run. now rewrite Hself, Hsess1. }
  pose proof (request_logs_one_call E w1 w2 _ (mkSession None) method url payload
                Hauth Hsess2 eq_refl) as Hcalls.
  exists w1, (pipeline_call (with_self (set__session (Some (mkSession None))) w2)
                (mkSession None) method url payload).
  split; [exact Hw1 |]. split; [exact Hacc |].
  split; [rewrite Hcalls; simpl; now rewrite Hlog2, Hlog1 |].
  repeat split.
Qed.

Lemma restored_token_sent_without_header_witness :
  _session (self restart_world) = None
  /\ fs restart_world !! "tokens.json"
     = Some (FFile (FJson (tokens_blob logged_in_client)))
  /\ py_truthy (JStr "a1") = true
  /\ (clock env_401 (clock_reads restart_world) < inject_Z 1000)%Q
  /\ exists (w1 : world) (call : request),
       load_tokens "tokens.json" restart_world = (Ok tt, w1)
       /\ net_log (snd (_request env_401 "GET" "/devices" None w1)) = [call]
       /\ req_authorization call = None.
Proof.
  assert (Hearly : (clock env_401 (clock_reads restart_world) < inject_Z 1000)%Q)
    by reflexivity.
  split; [reflexivity |]. split; [reflexivity |]. split; [reflexivity |].
  split; [exact Hearly |].
  destruct (restored_token_sent_without_header env_401 restart_world
              "tokens.json"
              [("access_token", JStr "a1"); ("refresh_token", JStr "r1");
               ("user_id", JStr "u1"); ("_access_expires_at", JNum 1000)]
              (JStr "a1") "GET" "/devices" None eq_refl eq_refl eq_refl eq_refl)
    as (w1 & call & Hload & _ & Hlog & _ & _ & Hnone).
  { right. exists 1000. split; [reflexivity | exact Hearly]. }
  exists w1, call. repeat split; assumption.
Defined.

(** X9: a derived expiry that is a string, a list or a dict (as
    [load_tokens] accepts it from a file) makes [_request] raise [TypeError]
    at the comparison with the clock, before the session is touched and
    before any HTTP call. *)
Theorem non_numeric_expiry_blocks_request (E : env) (w : world)
    (method url : string) (payload : option json) :
  py_truthy (_access_token (self w)) = true ->
  match _access_expires_at (self w) with
  | JStr _ | JArr _ | JObj _ => True
  | _ => False
  end ->
  _request E method url payload w
    = (Raise (TypeError ">="), with_clock_reads S w).
Proof.
  intros Hheld Hbad.
  unfold _request, bind at 1, _ensure_authenticated, bind at 1,
    _is_token_expired, bind at 1, get at 1.
  rewrite Hheld. cbn [negb]. unfold bind at 1, get at 1.
  destruct (_access_expires_at (self w)); try contradiction; reflexivity.
Qed.

Lemma non_numeric_expiry_blocks_request_witness :
  let w := world_of (set__access_expires_at (JStr "2030-01-01") logged_in_client) in
  py_truthy (_access_token (self w)) = true
  /\ _request env_204 "GET" "/devices" None w
     = (Raise (TypeError ">="), with_clock_reads S w).
Proof.
  intros w. split; [reflexivity |].
  apply (non_numeric_expiry_blocks_request env_204 w "GET" "/devices" None eq_refl).
  exact I.
Defined.

(** ** What the request pipeline leaves alone *)

Section Frame.

Context {B : Type} (proj : world -> B) (Hout : outside_pipeline proj).

Lemma preserves_ret {A : Type} (a : A) : preserves proj (ret a).
Proof. intros w. reflexivity. Qed.

Lemma preserves_raise {A : Type} (e : exn) : preserves proj (@raise A e).
Proof. intros w. reflexivity. Qed.

Lemma preserves_lift {A : Type} (r : result A) : preserves proj (lift r).
Proof. intros w. reflexivity. Qed.

Lemma preserves_get {A : Type} (f : client -> A) : preserves proj (get f).
Proof. intros w. reflexivity. Qed.

Lemma preserves_bind {A C : Type} (m : M A) (k : A -> M C) :
  preserves proj m -> (forall a, preserves proj (k a)) ->
  preserves proj (bind m k).
Proof.
  intros Hm Hk w. unfold bind. specialize (Hm w).
  destruct (m w) as [[a | e] w1]; simpl in *.
  - now rewrite (Hk a w1).
  - exact Hm.
Qed.

Lemma preserves_try_except {A : Type} (m h : M A) (covers : exn -> bool) :
  preserves proj m -> preserves proj h ->
  preserves proj (try_except m covers h).
Proof.
  intros Hm Hh w. unfold try_except. specialize (Hm w).
  destruct (m w) as [[a | e] w1]; simpl in *; [exact Hm |].
  destruct (covers e); simpl; [now rewrite (Hh w1) | exact Hm].
Qed.

Lemma preserves_set_session (v : option session) :
  preserves proj (modify (set__session v)).
Proof. intros w. apply Hout. Qed.

Lemma preserves_set_access_token (v : json) :
  preserves proj (modify (set__access_token v)).
Proof. intros w. apply Hout. Qed.

Lemma preserves_set_refresh_token (v : json) :
  preserves proj (modify (set__refresh_token v)).
Proof. intros w. apply Hout. Qed.

Lemma preserves_set_access_expires_at (v : json) :
  preserves proj (modify (set__access_expires_at v)).
Proof. intros w. apply Hout. Qed.

Lemma preserves_set_user_id (v : json) :
  preserves proj (modify (set__user_id v)).
Proof. intros w. apply Hout. Qed.

Lemma preserves_time_time (E : env) : preserves proj (time_time E).
Proof. intros w. apply Hout. Qed.

Lemma preserves_session_request (E : env) (method url : string) (timeout : Z)
    (payload : option json) :
  preserves proj (session_request E method url timeout payload).
Proof.
  intros w. unfold session_request. run.
  destruct (_session (self w)); [| reflexivity].
  destruct (transport E _ _); apply Hout.
Qed.

Lemma preserves_response_json (r : response) : preserves proj (response_json r).
Proof. intros w. unfold response_json. destruct (body r); reflexivity. Qed.

End Frame.

Create HintDb frame.
#[local] Hint Resolve preserves_ret preserves_raise preserves_lift preserves_get
  preserves_set_session preserves_set_access_token preserves_set_refresh_token
  preserves_set_access_expires_at preserves_set_user_id preserves_time_time
  preserves_session_request preserves_response_json : frame.

(** Follows the shape of a method body, as [keeps] does. *)
Ltac frame :=
  repeat first
    [ progress auto with frame
    | apply preserves_bind; [| intros ?]
    | apply preserves_try_except
    | match goal with
      | |- preserves _ (match ?x with _ => _ end) => destruct x
      | |- preserves _ (let _ := _ in _) => cbv zeta
      end ].

Section FrameOfMethods.

Context {B : Type} (proj : world -> B) (Hout : outside_pipeline proj) (E : env).

Lemma preserves_ensure_session : preserves proj _ensure_session.
Proof. unfold _ensure_session. frame. Qed.

Lemma preserves_set_tokens (tok rt : json) : preserves proj (_set_tokens E tok rt).
Proof.
  pose proof preserves_ensure_session.
  unfold _set_tokens, derive_expiry, headers_update_authorization. frame.
Qed.

Lemma preserves_is_token_expired : preserves proj (_is_token_expired E).
Proof. unfold _is_token_expired. frame. Qed.

Lemma preserves_login : preserves proj (_login E).
Proof.
  pose proof preserves_ensure_session. pose proof preserves_set_tokens.
  unfold _login. frame.
Qed.

Lemma preserves_refresh_function : preserves proj (IquaSoftener__refresh_token E).
Proof.
  pose proof preserves_ensure_session. pose proof preserves_set_tokens.
  unfold IquaSoftener__refresh_token. frame.
Qed.

Lemma preserves_ensure_authenticated : preserves proj (_ensure_authenticated E).
Proof.
  pose proof preserves_is_token_expired. pose proof preserves_login.
  unfold _ensure_authenticated, self__refresh_token_call, py_call. frame.
Qed.

Lemma preserves_request (method path : string) (payload : option json) :
  preserves proj (_request E method path payload).
Proof.
  pose proof preserves_ensure_session. pose proof preserves_login.
  pose proof preserves_ensure_authenticated.
  unfold _request, self__refresh_token_call, py_call, raise_for_status. frame.
Qed.

Lemma preserves_get_devices : preserves proj (_get_devices E).
Proof. pose proof preserves_request. unfold _get_devices. frame. Qed.

Lemma preserves_get_device_detail (device_id : json) :
  preserves proj (_get_device_detail E device_id).
Proof. pose proof preserves_request. unfold _get_device_detail. frame. Qed.

End FrameOfMethods.

(** X10: whatever lies outside what the pipeline writes (see
    [outside_pipeline]) is the same after [_request], [_login],
    [_get_devices], [_get_device_detail] and the function [_refresh_token]
    as before, whether they return or raise; in particular the device-id
    cache, the configuration and the file system. *)
Theorem pipeline_frame {B : Type} (proj : world -> B) (E : env) :
  outside_pipeline proj ->
  (forall method path payload, preserves proj (_request E method path payload))
  /\ preserves proj (_login E)
  /\ preserves proj (_get_devices E)
  /\ (forall device_id, preserves proj (_get_device_detail E device_id))
  /\ preserves proj (IquaSoftener__refresh_token E).
Proof.
  intros Hout. split; [| split; [| split; [| split]]].
  - intros method path payload. now apply preserves_request.
  - now apply preserves_login.
  - now apply preserves_get_devices.
  - intros device_id. now apply preserves_get_device_detail.
  - now apply preserves_refresh_function.
Qed.

Lemma pipeline_frame_witness :
  let proj := fun w : world => (_device_id (self w), config_of (self w), fs w) in
  outside_pipeline proj
  /\ (forall (E : env) (w : world),
        proj (snd (_request E "GET" "/devices" None w)) = proj w)
  /\ (forall (E : env) (w : world), proj (snd (_login E w)) = proj w).
Proof.
  intros proj.
  assert (Hout : outside_pipeline proj) by (repeat split).
  split; [exact Hout |]. split.
  - intros E w.
    destruct (pipeline_frame proj E Hout) as (Hrequest & _).
    apply (Hrequest "GET" "/devices" None w).
  - intros E w.
    destruct (pipeline_frame proj E Hout) as (_ & Hlogin & _).
    apply (Hlogin w).
Defined.

(** ** Device-id resolution: duplicates and failures *)

Lemma find_device_first_match (serial : string) (pre post : list json)
    (device id : json) (w : world) :
  Forall (fun d => exists v, device_serial_of d = Ok v
                             /\ py_eq_str v serial = false) pre ->
  serial_matches serial device = true ->
  py_getitem device "id" = Ok id ->
  find_device serial (pre ++ device :: post) w
    = (Ok id, with_self (set__device_id id) w).
Proof.
  intros Hpre Hmatch Hid. induction Hpre as [| d rest (v & Hv & Hne) _ IH].
  - simpl. unfold serial_matches in Hmatch. run.
    destruct (device_serial_of device) as [v | e]; [| discriminate].
    simpl. rewrite Hmatch. now rewrite Hid.
  - simpl. run. rewrite Hv. simpl. rewrite Hne. exact IH.
Qed.

Lemma find_device_raise_keeps_world (serial : string) (devices : list json)
    (x : exn) (w w' : world) :
  find_device serial devices w = (Raise x, w') -> w' = w.
Proof.
  induction devices as [| d rest IH]; simpl.
  - now intros [= _ <-].
  - run. destruct (device_serial_of d) as [v | e]; simpl;
      [| now intros [= _ <-]].
    destruct (py_eq_str v serial); [| exact IH].
    destruct (py_getitem d "id"); simpl; [discriminate | now intros [= _ <-]].
Qed.

Lemma outside_pipeline_device_id :
  outside_pipeline (fun w : world => _device_id (self w)).
Proof. repeat split. Qed.

(** X11: with an empty cache, [_get_device_id] returns the id of the first
    device of the list whose serial equals the configured one, and stores
    it, whatever follows that device in the list: further devices of the
    same serial, or entries that are no devices at all. *)
Theorem device_id_first_match (E : env) (w w' : world)
    (pre post : list json) (device id : json) :
  _device_id (self w) = JNull ->
  _get_devices E w = (Ok (JArr (pre ++ device :: post)), w') ->
  Forall (fun d => exists v, device_serial_of d = Ok v
                             /\ py_eq_str v (_device_serial_number (self w)) = false)
    pre ->
  serial_matches (_device_serial_number (self w)) device = true ->
  py_getitem device "id" = Ok id ->
  _get_device_id E w = (Ok id, with_self (set__device_id id) w').
Proof.
  intros Hempty Hlist Hpre Hmatch Hid.
  assert (Hserial : _device_serial_number (self w')
                    = _device_serial_number (self w)).
  { pose proof (keeps_get_devices E w) as Hkeep. rewrite Hlist in Hkeep.
    unfold config_of in Hkeep. simpl in Hkeep. now injection Hkeep. }
  unfold _get_device_id, bind at 1, get at 1. rewrite Hempty.
  unfold bind at 1. rewrite Hlist. run. rewrite Hserial.
  now apply find_device_first_match.
Qed.

(** X12: a resolution that raises caches nothing: if [_get_device_id]
    starts from an empty cache and raises, for whatever reason (login or
    transport failure, a malformed list, no device of the serial, a device
    without id), the cache is still empty afterwards. *)
Theorem failed_resolution_caches_nothing (E : env) (w w' : world) (x : exn) :
  _device_id (self w) = JNull ->
  _get_device_id E w = (Raise x, w') ->
  _device_id (self w') = JNull.
Proof.
  intros Hempty. unfold _get_device_id, bind at 1, get at 1. rewrite Hempty.
  unfold bind at 1.
  pose proof (preserves_get_devices _ outside_pipeline_device_id E w) as Hkeep.
  cbv beta in Hkeep. rewrite Hempty in Hkeep.
  destruct (_get_devices E w) as [[devices | e] w1]; simpl in Hkeep.
  - unfold bind at 1, lift at 1.
    destruct (py_iter devices) as [items | e].
    + unfold bind at 1, get at 1. intros Hfind.
      apply find_device_raise_keeps_world in Hfind. now subst.
    + now intros [= _ <-].
  - now intros [= _ <-].
Qed.

Lemma device_id_first_match_witness :
  let E := env_devices devices_with_duplicate in
  let w := world_of logged_in_client in
  let w' := snd (_get_devices E w) in
  _device_id (self w) = JNull
  /\ _get_devices E w
     = (Ok (JArr ([sample_device "SN-0" "dev-0"]
                  ++ sample_device "SN-1" "dev-1"
                  :: [sample_device "SN-1" "dev-9"; JStr "junk"])), w')
  /\ serial_matches "SN-1" (sample_device "SN-1" "dev-1") = true
  /\ py_getitem (sample_device "SN-1" "dev-1") "id" = Ok (JStr "dev-1")
  /\ _get_device_id E w = (Ok (JStr "dev-1"), with_self (set__device_id (JStr "dev-1")) w').
Proof.
  intros E w w'.
  do 4 (split; [reflexivity |]).
  apply (device_id_first_match E w w' [sample_device "SN-0" "dev-0"]
           [sample_device "SN-1" "dev-9"; JStr "junk"]
           (sample_device "SN-1" "dev-1") (JStr "dev-1"));
    try reflexivity.
  repeat constructor. exists (JStr "SN-0"). split; reflexivity.
Defined.

Lemma failed_resolution_caches_nothing_witness :
  let E := env_devices [device_without_id] in
  let w := world_of logged_in_client in
  _device_id (self w) = JNull
  /\ _get_device_id E w = (Raise (KeyError "id"), snd (_get_device_id E w))
  /\ _device_id (self (snd (_get_device_id E w))) = JNull.
Proof.
  intros E w.
  split; [reflexivity |]. split; [reflexivity |].
  apply (failed_resolution_caches_nothing E w (snd (_get_device_id E w))
           (KeyError "id")); reflexivity.
Defined.

(** ** The regeneration commands *)

Lemma schedule_regeneration_body (E : env) :
  schedule_regeneration E
    = device_command E (regenerate_payload "schedule") "schedule regeneration".
Proof. reflexivity. Qed.

Lemma cancel_scheduled_regeneration_body (E : env) :
  cancel_scheduled_regeneration E
    = device_command E (regenerate_payload "cancel") "cancel regeneration".
Proof. reflexivity. Qed.

Lemma regenerate_now_body (E : env) :
  regenerate_now E
    = device_command E (regenerate_payload "regenerate") "regenerate now".
Proof. reflexivity. Qed.

Lemma command_url (E : env) (base : string) (device_id : json) :
  resolve_url base (command_path E device_id)
    = rstrip_slash base ++ "/devices/" ++ py_str E device_id ++ "/command".
Proof. reflexivity. Qed.

(** The request a command logs. *)
Lemma device_command_sends (E : env) (w w1 w2 w3 : world) (sess : session)
    (device_id payload : json) (label : string) :
  _get_device_id E w = (Ok device_id, w1) ->
  _ensure_authenticated E w1 = (Ok tt, w2) ->
  _ensure_session w2 = (Ok tt, w3) ->
  _session (self w3) = Some sess ->
  net_log (snd (device_command E payload label w))
    = mkRequest "PUT"
        (rstrip_slash (_api_base_url (self w3))
           ++ "/devices/" ++ py_str E device_id ++ "/command")
        20 (Some payload) (authorization sess)
      :: net_log w3.
Proof.
  intros Hget Hauth Hsess Hs.
  pose proof (request_logs_one_call E w1 w2 w3 sess "PUT"
                (command_path E device_id) (Some payload) Hauth Hsess Hs) as Hlog.
  unfold pipeline_call in Hlog. rewrite command_url in Hlog.
  unfold device_command, bind at 1. rewrite Hget. unfold bind at 1.
  destruct (_request E "PUT" _ _ w1) as [[r | e] w4]; simpl in *;
    [| exact Hlog].
  destruct (negb (status_code r =? 200)); simpl; [exact Hlog |].
  unfold response_json. destruct (body r); exact Hlog.
Qed.

(** What a command returns when no 401 recovery is entered. *)
Lemma device_command_outcome (E : env) (w w1 w2 w3 : world) (sess : session)
    (device_id payload : json) (label : string) (r : response) :
  _get_device_id E w = (Ok device_id, w1) ->
  _ensure_authenticated E w1 = (Ok tt, w2) ->
  _ensure_session w2 = (Ok tt, w3) ->
  _session (self w3) = Some sess ->
  transport E (net_log w3)
    (pipeline_call w3 sess "PUT" (command_path E device_id) (Some payload))
    = NetResponse r ->
  (status_code r =? 401) && py_truthy (_refresh_token (self w3)) = false ->
  fst (device_command E payload label w) = command_outcome label r.
Proof.
  intros Hget Hauth Hsess Hs Hnet Hplain.
  unfold device_command, bind at 1. rewrite Hget. unfold bind at 1.
  rewrite (request_no_recovery E w1 w2 w3 sess "PUT" (command_path E device_id)
             (Some payload) r Hauth Hsess Hs Hnet Hplain).
  unfold request_outcome, command_outcome.
  destruct (is_error_status (status_code r)); [reflexivity |].
  destruct (status_code r =? 200); simpl; [| reflexivity].
  unfold response_json. destruct (body r); reflexivity.
Qed.

(** X13: once the device id is resolved and [_ensure_authenticated] has
    returned, each regeneration command logs exactly one call: a PUT to
    [<base>/devices/<id>/command] with a timeout of 20 and the payload
    function "regenerate", action "schedule" for [schedule_regeneration],
    "cancel" for [cancel_scheduled_regeneration] and "regenerate" for
    [regenerate_now]. *)
Theorem regeneration_commands_send (E : env) (w w1 w2 w3 : world)
    (sess : session) (device_id : json) :
  _get_device_id E w = (Ok device_id, w1) ->
  _ensure_authenticated E w1 = (Ok tt, w2) ->
  _ensure_session w2 = (Ok tt, w3) ->
  _session (self w3) = Some sess ->
  let sent (action : string) : request :=
    mkRequest "PUT"
      (rstrip_slash (_api_base_url (self w3))
         ++ "/devices/" ++ py_str E device_id ++ "/command")
      20
      (Some (JObj [("function", JStr "regenerate"); ("action", JStr action)]))
      (authorization sess) in
  net_log (snd (schedule_regeneration E w)) = sent "schedule" :: net_log w3
  /\ net_log (snd (cancel_scheduled_regeneration E w)) = sent "cancel" :: net_log w3
  /\ net_log (snd (regenerate_now E w)) = sent "regenerate" :: net_log w3.
Proof.
  intros Hget Hauth Hsess Hs sent.
  rewrite schedule_regeneration_body, cancel_scheduled_regeneration_body,
    regenerate_now_body.
  split; [| split];
    apply (device_command_sends E w w1 w2 w3 sess device_id); assumption.
Qed.

(** X14: when no 401 recovery is entered, a regeneration command returns
    the parsed body of a final 200 response and raises otherwise: an
    [HTTPError] for a final status from 400 to 599, an
    [IquaSoftenerException] naming the command and the status for any other
    status, the JSON error when the body of the 200 response is not JSON. *)
Theorem regeneration_commands_outcome (E : env) (w w1 w2 w3 : world)
    (sess : session) (device_id : json) :
  _get_device_id E w = (Ok device_id, w1) ->
  _ensure_authenticated E w1 = (Ok tt, w2) ->
  _ensure_session w2 = (Ok tt, w3) ->
  _session (self w3) = Some sess ->
  let answer (action : string) (r : response) : Prop :=
    transport E (net_log w3)
      (pipeline_call w3 sess "PUT" (command_path E device_id)
         (Some (regenerate_payload action)))
      = NetResponse r
    /\ (status_code r =? 401) && py_truthy (_refresh_token (self w3)) = false in
  (forall r, answer "schedule" r ->
     fst (schedule_regeneration E w) = command_outcome "schedule regeneration" r)
  /\ (forall r, answer "cancel" r ->
        fst (cancel_scheduled_regeneration E w)
          = command_outcome "cancel regeneration" r)
  /\ (forall r, answer "regenerate" r ->
        fst (regenerate_now E w) = command_outcome "regenerate now" r).
Proof.
  intros Hget Hauth Hsess Hs answer.
  rewrite schedule_regeneration_body, cancel_scheduled_regeneration_body,
    regenerate_now_body.
  split; [| split]; intros r [Hnet Hplain];
    apply (device_command_outcome E w w1 w2 w3 sess device_id); assumption.
Qed.

Lemma regeneration_commands_send_witness :
  let w := world_of resolved_client in
  let w1 := with_clock_reads S w in
  let sent (action : string) : request :=
    mkRequest "PUT" "https://api.myiquaapp.com/v1/devices/dev-1/command" 20
      (Some (JObj [("function", JStr "regenerate"); ("action", JStr action)]))
      (Some "Bearer a1") in
  _get_device_id env_204 w = (Ok (JStr "dev-1"), w)
  /\ _ensure_authenticated env_204 w = (Ok tt, w1)
  /\ _ensure_session w1 = (Ok tt, w1)
  /\ _session (self w1) = Some (mkSession (Some "Bearer a1"))
  /\ net_log (snd (schedule_regeneration env_204 w)) = [sent "schedule"]
  /\ net_log (snd (cancel_scheduled_regeneration env_204 w)) = [sent "cancel"]
  /\ net_log (snd (regenerate_now env_204 w)) = [sent "regenerate"].
Proof.
  intros w w1 sent.
  do 4 (split; [reflexivity |]).
  exact (regeneration_commands_send env_204 w w w1 w1
           (mkSession (Some "Bearer a1")) (JStr "dev-1")
           eq_refl eq_refl eq_refl eq_refl).
Defined.

Lemma regeneration_commands_outcome_witness :
  let w := world_of resolved_client in
  let w1 := with_clock_reads S w in
  let sess := mkSession (Some "Bearer a1") in
  let call (action : string) : request :=
    pipeline_call w1 sess "PUT" (command_path env_204 (JStr "dev-1"))
      (Some (regenerate_payload action)) in
  _get_device_id env_204 w = (Ok (JStr "dev-1"), w)
  /\ _ensure_authenticated env_204 w = (Ok tt, w1)
  /\ _ensure_session w1 = (Ok tt, w1)
  /\ _session (self w1) = Some sess
  /\ transport env_204 (net_log w1) (call "schedule")
     = NetResponse (mkResponse 204 "" None)
  /\ transport env_500 (net_log w1) (call "cancel")
     = NetResponse (mkResponse 500 "down" None)
  /\ transport (env_devices []) (net_log w1) (call "regenerate")
     = NetResponse (devices_response [])
  /\ fst (schedule_regeneration env_204 w)
     = Raise (IquaSoftenerException (InvalidStatus 204 "schedule regeneration"))
  /\ fst (cancel_scheduled_regeneration env_500 w) = Raise (HTTPError 500)
  /\ fst (regenerate_now (env_devices []) w) = Ok (JObj [("data", JArr [])]).
Proof.
  intros w w1 sess call.
  do 7 (split; [reflexivity |]).
  pose proof (regeneration_commands_outcome env_204 w w w1 w1 sess (JStr "dev-1")
                eq_refl eq_refl eq_refl eq_refl) as (Hschedule & _ & _).
  pose proof (regeneration_commands_outcome env_500 w w w1 w1 sess (JStr "dev-1")
                eq_refl eq_refl eq_refl eq_refl) as (_ & Hcancel & _).
  pose proof (regeneration_commands_outcome (env_devices []) w w w1 w1 sess
                (JStr "dev-1") eq_refl eq_refl eq_refl eq_refl) as (_ & _ & Hnow).
  split; [exact (Hschedule (mkResponse 204 "" None) (conj eq_refl eq_refl)) |].
  split; [exact (Hcancel (mkResponse 500 "down" None) (conj eq_refl eq_refl)) |].
  exact (Hnow (devices_response []) (conj eq_refl eq_refl)).
Defined.

(** ** How many HTTP calls an operation makes *)

Section CallBudget.

Context (P : request -> Prop).

Lemma logs_ret {A : Type} (a : A) (n : nat) : logs n P (ret a).
Proof. intros w. exists []. repeat split; [simpl; lia | constructor]. Qed.

Lemma logs_raise {A : Type} (e : exn) (n : nat) : logs n P (@raise A e).
Proof. intros w. exists []. repeat split; [simpl; lia | constructor]. Qed.

Lemma logs_lift {A : Type} (r : result A) (n : nat) : logs n P (lift r).
Proof. intros w. exists []. repeat split; [simpl; lia | constructor]. Qed.

Lemma logs_get {A : Type} (f : client -> A) (n : nat) : logs n P (get f).
Proof. intros w. exists []. repeat split; [simpl; lia | constructor]. Qed.

Lemma logs_modify (f : client -> client) (n : nat) : logs n P (modify f).
Proof. intros w. exists []. repeat split; [simpl; lia | constructor]. Qed.

Lemma logs_time_time (E : env) (n : nat) : logs n P (time_time E).
Proof. intros w. exists []. repeat split; [simpl; lia | constructor]. Qed.

Lemma logs_bind {A C : Type} (n1 n2 n : nat) (m : M A) (k : A -> M C) :
  (n1 + n2 <= n)%nat ->
  logs n1 P m -> (forall a, logs n2 P (k a)) -> logs n P (bind m k).
Proof.
  intros Hn Hm Hk w. unfold bind.
  destruct (Hm w) as (new1 & Hlog1 & Hlen1 & HP1).
  destruct (m w) as [[a | e] w1]; simpl in *.
  - destruct (Hk a w1) as (new2 & Hlog2 & Hlen2 & HP2).
    exists (new2 ++ new1)%list. rewrite Hlog2, Hlog1.
    split; [now rewrite <- app_assoc |].
    split; [rewrite length_app; lia | now apply Forall_app].
  - exists new1. repeat split; [exact Hlog1 | lia | exact HP1].
Qed.

Lemma logs_try_except {A : Type} (n1 n2 n : nat) (m h : M A)
    (covers : exn -> bool) :
  (n1 + n2 <= n)%nat ->
  logs n1 P m -> logs n2 P h -> logs n P (try_except m covers h).
Proof.
  intros Hn Hm Hh w. unfold try_except.
  destruct (Hm w) as (new1 & Hlog1 & Hlen1 & HP1).
  destruct (m w) as [[a | e] w1]; simpl in *.
  - exists new1. repeat split; [exact Hlog1 | lia | exact HP1].
  - destruct (covers e); simpl.
    + destruct (Hh w1) as (new2 & Hlog2 & Hlen2 & HP2).
      exists (new2 ++ new1)%list. rewrite Hlog2, Hlog1.
      split; [now rewrite <- app_assoc |].
      split; [rewrite length_app; lia | now apply Forall_app].
    + exists new1. repeat split; [exact Hlog1 | lia | exact HP1].
Qed.

Lemma logs_session_request (E : env) (method url : string) (timeout : Z)
    (payload : option json) (n : nat) :
  (1 <= n)%nat ->
  (forall auth, P (mkRequest method url timeout payload auth)) ->
  logs n P (session_request E method url timeout payload).
Proof.
  intros Hn HP w. unfold session_request. run.
  destruct (_session (self w)) as [sess |].
  - exists [mkRequest method url timeout payload (authorization sess)].
    split; [destruct (transport E _ _); reflexivity |].
    split; [simpl; lia | constructor; [apply HP | constructor]].
  - exists []. repeat split; [simpl; lia | constructor].
Qed.

End CallBudget.

(** Splits the budget of a bind: [n1] for the first part, [n2] for the
    rest. *)
Ltac spend n1 n2 := apply (logs_bind _ n1 n2); [lia | | intros ?].

(** Closes a body that makes no call. *)
Ltac no_call :=
  repeat first
    [ apply logs_ret | apply logs_raise | apply logs_lift | apply logs_get
    | apply logs_modify | apply logs_time_time
    | match goal with
      | H : forall _, _ |- _ => apply H
      end
    | spend 0%nat 0%nat
    | match goal with
      | |- logs _ _ (match ?x with _ => _ end) => destruct x
      end ].

Section CallBudgetOfMethods.

Context (E : env).

Lemma logs_ensure_session (n : nat) : logs n bounded_call _ensure_session.
Proof. unfold _ensure_session. no_call. Qed.

Lemma logs_set_tokens (tok rt : json) (n : nat) :
  logs n bounded_call (_set_tokens E tok rt).
Proof.
  pose proof logs_ensure_session.
  unfold _set_tokens, derive_expiry, headers_update_authorization. no_call.
Qed.

Lemma logs_is_token_expired (n : nat) : logs n bounded_call (_is_token_expired E).
Proof. unfold _is_token_expired. no_call. Qed.

Lemma logs_response_json (r : response) (n : nat) :
  logs n bounded_call (response_json r).
Proof. unfold response_json. no_call. Qed.

Lemma logs_login (n : nat) : (1 <= n)%nat -> logs n bounded_call (_login E).
Proof.
  intros Hn. pose proof logs_ensure_session. pose proof logs_set_tokens.
  pose proof logs_response_json.
  unfold _login.
  spend 0%nat n; [no_call |]. spend 0%nat n; [no_call |].
  spend 0%nat n; [no_call |]. spend 0%nat n; [no_call |]. cbv zeta.
  spend n 0%nat; [| no_call].
  apply (logs_try_except _ n 0%nat); [lia | | no_call].
  apply logs_session_request; [exact Hn |].
  intros auth. left. split; reflexivity.
Qed.

Lemma logs_refresh_function (n : nat) :
  (1 <= n)%nat -> logs n bounded_call (IquaSoftener__refresh_token E).
Proof.
  intros Hn. pose proof logs_ensure_session. pose proof logs_set_tokens.
  pose proof logs_response_json.
  unfold IquaSoftener__refresh_token.
  spend 0%nat n; [no_call |].
  match goal with |- logs _ _ (if ?b then _ else _) => destruct b end;
    [no_call |].
  spend 0%nat n; [no_call |]. spend 0%nat n; [no_call |]. cbv zeta.
  spend n 0%nat; [| no_call].
  apply (logs_try_except _ n 0%nat); [lia | | no_call].
  apply logs_session_request; [exact Hn |].
  intros auth. left. split; reflexivity.
Qed.

(** The recovery block of [_request] and the refresh branch of
    [_ensure_authenticated] stop at [self._refresh_token()]. *)
Lemma refresh_call_stops {A : Type} (k h : M A) (w : world) :
  try_except (self__refresh_token_call ;; k) is_IquaSoftenerException h w
    = (Raise (TypeError "object is not callable"), w).
Proof. reflexivity. Qed.

Lemma logs_ensure_authenticated (n : nat) :
  (2 <= n)%nat -> logs n bounded_call (_ensure_authenticated E).
Proof.
  intros Hn. pose proof logs_is_token_expired.
  unfold _ensure_authenticated.
  spend 0%nat n; [no_call |].
  match goal with |- logs _ _ (if ?b then _ else _) => destruct b end;
    [| no_call].
  apply (logs_try_except _ 1%nat 1%nat); [lia | |].
  - spend 0%nat 1%nat; [no_call |].
    match goal with |- logs _ _ (if ?b then _ else _) => destruct b end.
    + unfold self__refresh_token_call, py_call. no_call.
    + spend 1%nat 0%nat; [now apply logs_login | no_call].
  - spend 1%nat 0%nat; [now apply logs_login | no_call].
Qed.

Lemma logs_request (method path : string) (payload : option json) (n : nat) :
  (3 <= n)%nat -> logs n bounded_call (_request E method path payload).
Proof.
  intros Hn. pose proof logs_ensure_session.
  unfold _request.
  spend 2%nat 1%nat; [now apply logs_ensure_authenticated |].
  spend 0%nat 1%nat; [no_call |]. spend 0%nat 1%nat; [no_call |]. cbv zeta.
  spend 1%nat 0%nat.
  { apply logs_session_request; [lia |]. intros auth. now right. }
  spend 0%nat 0%nat; [no_call |].
  spend 0%nat 0%nat.
  - match goal with |- logs _ _ (if ?b then _ else _) => destruct b end;
      [| no_call].
    intros w. rewrite refresh_call_stops. exists []. repeat split; constructor.
  - unfold raise_for_status. no_call.
Qed.

Lemma logs_find_device (serial : string) (devices : list json) (n : nat) :
  logs n bounded_call (find_device serial devices).
Proof.
  revert n. induction devices as [| d rest IH]; intros n; simpl; no_call.
Qed.

Lemma logs_get_devices (n : nat) :
  (3 <= n)%nat -> logs n bounded_call (_get_devices E).
Proof.
  intros Hn. pose proof logs_response_json. unfold _get_devices.
  spend 3%nat 0%nat; [now apply logs_request | no_call].
Qed.

Lemma logs_get_device_id (n : nat) :
  (3 <= n)%nat -> logs n bounded_call (_get_device_id E).
Proof.
  intros Hn. pose proof logs_find_device. unfold _get_device_id.
  spend 0%nat n; [no_call |].
  match goal with |- logs _ _ (match ?x with _ => _ end) => destruct x end;
    try solve [no_call].
  spend 3%nat 0%nat; [now apply logs_get_devices | no_call].
Qed.

Lemma logs_device_command (payload : json) (label : string) (n : nat) :
  (6 <= n)%nat -> logs n bounded_call (device_command E payload label).
Proof.
  intros Hn. pose proof logs_response_json. unfold device_command.
  spend 3%nat 3%nat; [now apply logs_get_device_id |].
  spend 3%nat 0%nat; [now apply logs_request | no_call].
Qed.

End CallBudgetOfMethods.

(** X15: no operation makes more HTTP calls than a fixed number: a login or
    the function [_refresh_token] one, [_ensure_authenticated] two (a login
    and its repetition), [_request], [get_devices], [get_device_id] and
    [_get_device_detail] three, a command six.  Every call is a POST with a
    timeout of 15 seconds or a call with a timeout of 20 seconds, and the
    log only grows: earlier entries stay. *)
Theorem http_calls_bounded (E : env) :
  logs 1 bounded_call (_login E)
  /\ logs 1 bounded_call (IquaSoftener__refresh_token E)
  /\ logs 2 bounded_call (_ensure_authenticated E)
  /\ (forall method path payload,
        logs 3 bounded_call (_request E method path payload))
  /\ logs 3 bounded_call (get_devices E)
  /\ logs 3 bounded_call (get_device_id E)
  /\ (forall device_id, logs 3 bounded_call (_get_device_detail E device_id))
  /\ (forall state, logs 6 bounded_call (set_water_shutoff_valve E state))
  /\ logs 6 bounded_call (open_water_shutoff_valve E)
  /\ logs 6 bounded_call (close_water_shutoff_valve E)
  /\ logs 6 bounded_call (schedule_regeneration E)
  /\ logs 6 bounded_call (cancel_scheduled_regeneration E)
  /\ logs 6 bounded_call (regenerate_now E).
Proof.
  assert (Hvalve : forall state,
            logs 6 bounded_call (set_water_shutoff_valve E state)).
  { intros state. unfold set_water_shutoff_valve.
    destruct (negb ((state =? 0) || (state =? 1))); [apply logs_raise |].
    apply (logs_device_command E
             (JObj [("function", JStr "water_shutoff_valve");
                    ("action", JStr (if state =? 1 then "close" else "open"))])
             "set water shutoff valve" 6). lia. }
  repeat split.
  - now apply logs_login.
  - now apply logs_refresh_function.
  - now apply logs_ensure_authenticated.
  - intros method path payload. now apply logs_request.
  - now apply logs_get_devices.
  - now apply logs_get_device_id.
  - intros device_id. pose proof (logs_response_json).
    unfold _get_device_detail.
    spend 3%nat 0%nat; [now apply logs_request | no_call].
  - exact Hvalve.
  - apply Hvalve.
  - apply Hvalve.
  - rewrite schedule_regeneration_body. now apply logs_device_command.
  - rewrite cancel_scheduled_regeneration_body. now apply logs_device_command.
  - rewrite regenerate_now_body. now apply logs_device_command.
Qed.

(** ** Configuration and file system under the public operations *)

Lemma outside_pipeline_config_and_files : outside_pipeline config_and_files.
Proof. repeat split. Qed.

Lemma load_tokens_keeps_config_and_files (w : world) (path : string) :
  config_of (self (snd (load_tokens path w))) = config_of (self w)
  /\ fs (snd (load_tokens path w)) = fs w.
Proof.
  unfold load_tokens, read_json. run.
  destruct (fs w !! path) as [[[doc | raw | cut] |] |]; try (split; reflexivity).
  destruct doc; split; reflexivity.
Qed.

Lemma preserves_find_device (serial : string) (devices : list json) :
  preserves config_and_files (find_device serial devices).
Proof.
  pose proof outside_pipeline_config_and_files as Hout.
  induction devices as [| d rest IH]; simpl; [apply preserves_raise |].
  apply preserves_bind; [apply preserves_lift | intros v].
  destruct (py_eq_str v serial); [| exact IH].
  apply preserves_bind; [apply preserves_lift | intros id].
  apply preserves_bind; [intros w; reflexivity | intros _].
  apply preserves_get.
Qed.

Lemma preserves_get_device_id (E : env) :
  preserves config_and_files (_get_device_id E).
Proof.
  pose proof outside_pipeline_config_and_files as Hout.
  pose proof (preserves_get_devices config_and_files Hout E).
  pose proof preserves_find_device.
  unfold _get_device_id. frame.
Qed.

Lemma preserves_device_command (E : env) (payload : json) (label : string) :
  preserves config_and_files (device_command E payload label).
Proof.
  pose proof outside_pipeline_config_and_files as Hout.
  pose proof (preserves_get_device_id E).
  pose proof (preserves_request config_and_files Hout E).
  unfold device_command. frame.
Qed.

(** X16: no operation changes the credentials, the serial number or the
    base URL, and none but [save_tokens] writes the file system: the
    device and command operations and [load_tokens] leave both as they
    are, whether they return or raise, and [save_tokens] leaves the
    instance as it is. *)
Theorem operations_keep_config_and_files (E : env) :
  preserves config_and_files (get_devices E)
  /\ preserves config_and_files (get_device_id E)
  /\ (forall device_id, preserves config_and_files (_get_device_detail E device_id))
  /\ (forall state, preserves config_and_files (set_water_shutoff_valve E state))
  /\ preserves config_and_files (open_water_shutoff_valve E)
  /\ preserves config_and_files (close_water_shutoff_valve E)
  /\ preserves config_and_files (schedule_regeneration E)
  /\ preserves config_and_files (cancel_scheduled_regeneration E)
  /\ preserves config_and_files (regenerate_now E)
  /\ (forall path, preserves config_and_files (load_tokens path))
  /\ (forall path, preserves self (save_tokens E path)).
Proof.
  pose proof outside_pipeline_config_and_files as Hout.
  assert (Hvalve : forall state,
            preserves config_and_files (set_water_shutoff_valve E state)).
  { intros state. unfold set_water_shutoff_valve.
    destruct (negb ((state =? 0) || (state =? 1))); [apply preserves_raise |].
    apply (preserves_device_command E
             (JObj [("function", JStr "water_shutoff_valve");
                    ("action", JStr (if state =? 1 then "close" else "open"))])
             "set water shutoff valve"). }
  repeat split.
  - now apply preserves_get_devices.
  - apply preserves_get_device_id.
  - intros device_id. now apply preserves_get_device_detail.
  - exact Hvalve.
  - apply Hvalve.
  - apply Hvalve.
  - rewrite schedule_regeneration_body. apply preserves_device_command.
  - rewrite cancel_scheduled_regeneration_body. apply preserves_device_command.
  - rewrite regenerate_now_body. apply preserves_device_command.
  - intros path w.
    destruct (load_tokens_keeps_config_and_files w path) as (Hc & Hf).
    unfold config_and_files. now rewrite Hc, Hf.
  - intros path w. unfold save_tokens.
    destruct (fs w !! path) as [[c |] |]; try reflexivity;
      destruct (writable E path); try reflexivity;
      destruct (json_dumpable E (tokens_blob (self w))); reflexivity.
Qed.

(** ** A refresh token held, no valid access token *)

(** X17: a client that holds a refresh token, and whose access token is
    absent or at or past its derived expiry, gets no request through:
    [_request] raises [TypeError] at [self._refresh_token()] without any
    HTTP call and leaves the instance as it is, so the next request meets
    the same state. *)
Theorem request_blocked_by_refresh_token (E : env) (w : world)
    (method path : string) (payload : option json) :
  py_truthy (_refresh_token (self w)) = true ->
  (py_truthy (_access_token (self w)) = false
   \/ (py_truthy (_access_token (self w)) = true
       /\ exists d : Z,
            _access_expires_at (self w) = JNum d
            /\ (inject_Z d <= clock E (clock_reads w))%Q)) ->
  fst (_request E method path payload w)
    = Raise (TypeError "object is not callable")
  /\ self (snd (_request E method path payload w)) = self w
  /\ net_log (snd (_request E method path payload w)) = net_log w
  /\ fs (snd (_request E method path payload w)) = fs w.
Proof.
  intros Hheld Hstate.
  assert (Hauth : exists w1,
            _ensure_authenticated E w
              = (Raise (TypeError "object is not callable"), w1)
            /\ self w1 = self w /\ net_log w1 = net_log w /\ fs w1 = fs w).
  { unfold _ensure_authenticated, bind at 1.
    destruct Hstate as [Habsent | (Hacc & d & Hd & Hpast)].
    - rewrite (is_token_expired_absent E w Habsent).
      exists w. split; [| repeat split].
      unfold self__refresh_token_call. run. now rewrite Hheld.
    - rewrite (is_token_expired_known E w d Hacc Hd).
      apply Qle_bool_iff in Hpast. rewrite Hpast.
      exists (with_clock_reads S w). split; [| repeat split].
      unfold self__refresh_token_call. run. now rewrite Hheld. }
  destruct Hauth as (w1 & Hauth & Hself & Hlog & Hfs).
  assert (Hrun : _request E method path payload w
                 = (Raise (TypeError "object is not callable"), w1))
    by (unfold _request, bind at 1; now rewrite Hauth).
  rewrite Hrun. simpl. repeat split; assumption.
Qed.

Lemma request_blocked_by_refresh_token_witness :
  let w := world_of refresh_only_client in
  py_truthy (_refresh_token (self w)) = true
  /\ py_truthy (_access_token (self w)) = false
  /\ fst (_request env_tokens "GET" "/devices" None w)
     = Raise (TypeError "object is not callable")
  /\ net_log (snd (_request env_tokens "GET" "/devices" None w)) = [].
Proof.
  intros w. split; [reflexivity |]. split; [reflexivity |].
  destruct (request_blocked_by_refresh_token env_tokens w "GET" "/devices" None
              eq_refl (or_introl eq_refl)) as (Hraise & _ & Hlog & _).
  split; [exact Hraise | exact Hlog].
Defined.

(** ** The read operations *)

Lemma document_member_run (key : string) (default : json) (r : response)
    (w : world) :
  (data <- response_json r ;; lift (py_get data key default)) w
    = (document_member key default r, w).
Proof.
  unfold document_member, response_json. run. destruct (body r); reflexivity.
Qed.

(** X18: [_get_devices] and [_get_device_detail] do not test for status
    200.  When no 401 recovery is entered they raise [HTTPError] for a final
    status from 400 to 599 and otherwise, whatever the status, evaluate the
    body: the member "data", resp. "device", of a JSON object, an empty
    list, resp. an empty dict, when the key is missing, [AttributeError]
    when the document is no object, the JSON error when the body is not
    JSON.  Each logs one GET without body, the detail call to
    [<base>/devices/<id>/detail-or-summary]. *)
Theorem read_operations_outcome (E : env) (w w1 w2 : world) (sess : session) :
  _ensure_authenticated E w = (Ok tt, w1) ->
  _ensure_session w1 = (Ok tt, w2) ->
  _session (self w2) = Some sess ->
  let answer (path : string) (r : response) : Prop :=
    transport E (net_log w2) (pipeline_call w2 sess "GET" path None)
      = NetResponse r
    /\ (status_code r =? 401) && py_truthy (_refresh_token (self w2)) = false in
  (forall r, answer "/devices" r ->
     _get_devices E w
       = (read_outcome "data" (JArr []) r,
          with_net_log (cons (pipeline_call w2 sess "GET" "/devices" None)) w2))
  /\ (forall device_id r, answer (detail_path E device_id) r ->
        _get_device_detail E device_id w
          = (read_outcome "device" (JObj []) r,
             with_net_log
               (cons (mkRequest "GET"
                        (rstrip_slash (_api_base_url (self w2))
                           ++ "/devices/" ++ py_str E device_id
                           ++ "/detail-or-summary")
                        20 None (authorization sess))) w2)).
Proof.
  intros Hauth Hsess Hs answer. split.
  - intros r [Hnet Hplain]. unfold _get_devices, bind at 1.
    rewrite (request_no_recovery E w w1 w2 sess "GET" "/devices" None r
               Hauth Hsess Hs Hnet Hplain).
    unfold request_outcome, read_outcome.
    destruct (is_error_status (status_code r)); [reflexivity |].
    apply document_member_run.
  - intros device_id r [Hnet Hplain]. unfold _get_device_detail, bind at 1.
    fold (detail_path E device_id).
    rewrite (request_no_recovery E w w1 w2 sess "GET" (detail_path E device_id)
               None r Hauth Hsess Hs Hnet Hplain).
    unfold request_outcome, read_outcome.
    destruct (is_error_status (status_code r)); [reflexivity |].
    apply document_member_run.
Qed.

Lemma read_operations_outcome_witness :
  let w := world_of logged_in_client in
  let w1 := with_clock_reads S w in
  let sess := mkSession (Some "Bearer a1") in
  let accepted := mkResponse 202 "" (Some (JObj [("device", JObj [("id", JStr "dev-1")])])) in
  let E := sample_env (always accepted) 0 in
  _ensure_authenticated E w = (Ok tt, w1)
  /\ _ensure_session w1 = (Ok tt, w1)
  /\ _session (self w1) = Some sess
  /\ transport E (net_log w1) (pipeline_call w1 sess "GET" "/devices" None)
     = NetResponse accepted
  /\ transport E (net_log w1)
       (pipeline_call w1 sess "GET" (detail_path E (JStr "dev-1")) None)
     = NetResponse accepted
  /\ (202 =? 401) && py_truthy (_refresh_token (self w1)) = false
  /\ fst (_get_devices E w) = Ok (JArr [])
  /\ fst (_get_device_detail E (JStr "dev-1") w) = Ok (JObj [("id", JStr "dev-1")])
  /\ map req_url (net_log (snd (_get_device_detail E (JStr "dev-1") w)))
     = ["https://api.myiquaapp.com/v1/devices/dev-1/detail-or-summary"].
Proof.
  intros w w1 sess accepted E.
  do 6 (split; [reflexivity |]).
  pose proof (read_operations_outcome E w w1 w1 sess eq_refl eq_refl eq_refl)
    as (Hlist & Hdetail).
  rewrite (Hlist accepted (conj eq_refl eq_refl)).
  rewrite (Hdetail (JStr "dev-1") accepted (conj eq_refl eq_refl)).
  repeat split.
Defined.

(** X19: what [_get_device_id] makes of a device-list document, the cache
    being empty and the request having returned the response: a body that
    is not JSON raises the JSON error, a document that is no object raises
    [AttributeError], an object without "data" or with an empty list raises
    the not-found error, and a "data" that is [None], a bool or a number
    raises [TypeError]; in each case the world is the one [_request] left. *)
Theorem device_list_documents (E : env) (w w' : world) (r : response) :
  _device_id (self w) = JNull ->
  _request E "GET" "/devices" None w = (Ok r, w') ->
  (body r = None ->
   _get_device_id E w = (Raise RequestsJSONDecodeError, w'))
  /\ (forall doc : json,
        body r = Some doc ->
        (forall d : pydict, doc <> JObj d) ->
        _get_device_id E w = (Raise (AttributeError "get"), w'))
  /\ (forall d : pydict,
        body r = Some (JObj d) ->
        dict_get d "data" = None \/ dict_get d "data" = Some (JArr []) ->
        _get_device_id E w
          = (Raise (IquaSoftenerException
                      (DeviceNotFound (_device_serial_number (self w)))), w'))
  /\ (forall (d : pydict) (v : json),
        body r = Some (JObj d) ->
        dict_get d "data" = Some v ->
        match v with JNull | JBool _ | JNum _ => True | _ => False end ->
        _get_device_id E w = (Raise (TypeError "not iterable"), w')).
Proof.
  intros Hempty Hreq.
  assert (Hrun : _get_device_id E w
            = (items <- lift (match document_member "data" (JArr []) r with
                              | Ok devices => py_iter devices
                              | Raise e => Raise e
                              end) ;;
               serial <- get _device_serial_number ;;
               find_device serial items) w').
  { unfold _get_device_id, bind at 1, get at 1. rewrite Hempty.
    unfold bind at 1, _get_devices, bind at 1. rewrite Hreq.
    rewrite document_member_run.
    destruct (document_member "data" (JArr []) r) as [devices | e];
      [| reflexivity].
    unfold bind at 2, lift at 2. destruct (py_iter devices); reflexivity. }
  assert (Hserial : _device_serial_number (self w')
                    = _device_serial_number (self w)).
  { pose proof (keeps_request E "GET" "/devices" None w) as Hkeep.
    rewrite Hreq in Hkeep. unfold config_of in Hkeep. simpl in Hkeep.
    now injection Hkeep. }
  rewrite Hrun. unfold document_member.
  split; [| split; [| split]].
  - intros ->. reflexivity.
  - intros doc -> Hnot.
    destruct doc as [| b | n | s | items | d]; try reflexivity.
    now destruct (Hnot d).
  - intros d -> Hdata. unfold py_get, dict_get_or. rewrite <- Hserial.
    destruct Hdata as [-> | ->]; reflexivity.
  - intros d v -> Hdata Hv. unfold py_get, dict_get_or. rewrite Hdata.
    destruct v; try contradiction; reflexivity.
Qed.

Lemma device_list_documents_witness :
  let w := world_of logged_in_client in
  let run (doc : json) := _get_device_id (env_document doc) w in
  _device_id (self w) = JNull
  /\ (forall doc,
        _request (env_document doc) "GET" "/devices" None w
          = (Ok (mkResponse 200 "" (Some doc)),
             snd (_request (env_document doc) "GET" "/devices" None w)))
  /\ (forall d : pydict, JArr [] <> JObj d)
  /\ dict_get [("count", JNum 0)] "data" = None
  /\ dict_get [("data", JNull)] "data" = Some JNull
  /\ fst (run (JArr [])) = Raise (AttributeError "get")
  /\ fst (run (JObj [("count", JNum 0)]))
     = Raise (IquaSoftenerException (DeviceNotFound "SN-1"))
  /\ fst (run (JObj [("data", JNull)])) = Raise (TypeError "not iterable").
Proof.
  intros w run.
  split; [reflexivity |]. split; [intros doc; reflexivity |].
  split; [discriminate |]. split; [reflexivity |]. split; [reflexivity |].
  unfold run.
  pose proof (fun doc =>
                device_list_documents (env_document doc) w _
                  (mkResponse 200 "" (Some doc)) eq_refl eq_refl) as Hdocs.
  destruct (Hdocs (JArr [])) as (_ & Hlist & _ & _).
  destruct (Hdocs (JObj [("count", JNum 0)])) as (_ & _ & Hmissing & _).
  destruct (Hdocs (JObj [("data", JNull)])) as (_ & _ & _ & Hnull).
  rewrite (Hlist (JArr []) eq_refl); [| discriminate].
  rewrite (Hmissing [("count", JNum 0)] eq_refl (or_introl eq_refl)).
  rewrite (Hnull [("data", JNull)] JNull eq_refl eq_refl I).
  repeat split.
Defined.

(** ** The final status, operation by operation *)




